(** * Wedding RSVP: guest-side validation, administrator statistics and the
      submission endpoint

    A shallow embedding of
    - [validateForm], [updateInvite], [updateInvitation], [fetchData] and
      [handleSubmit] of the guest page   (src/app/rsvp/[token]/page.tsx),
    - [calculateStats], [getStatsDetails], [getAccommodationDetails],
      [fetchInvitations], [checkAuth] and [handleLogout] of the
      administrator dashboard            (src/unnamed/part_002),
    - [handleSubmit] of the login page   (src/unnamed/part_001),
    - [POST] of the submission endpoint  (src/app/api/rsvp/route.ts),
    followed by the properties the specification states about them and by
    further properties read off the code.

    Conventions.  A TypeScript [T | null] is an [option T]; a [boolean | null]
    answer is an [option bool] with [None] for "unanswered".  The integer
    column [herbergement_nombre] and the counters are [Z]; in the form the
    headcount is what [parseInt] gave, an integer or [NaN].  Strings are
    Rocq strings holding the UTF-8 bytes of the source literals. *)

From Stdlib Require Import ZArith String Ascii List Lia Permutation.
From stdpp Require Import base option list strings pretty gmap.

Local Open Scope Z_scope.
Local Open Scope string_scope.

(** ** JavaScript operators used by the three files *)

Module Js.

(** [x === true] and [x === false] on a [boolean | null]. *)
Definition is_true (x : option bool) : bool :=
  match x with Some true => true | _ => false end.

Definition is_false (x : option bool) : bool :=
  match x with Some false => true | _ => false end.

(** [x === null]. *)
Definition is_null {A : Type} (x : option A) : bool :=
  match x with None => true | Some _ => false end.

(** [t === "lit"] on a [string | null]. *)
Definition str_is (t : option string) (lit : string) : bool :=
  match t with Some s => String.eqb s lit | None => false end.

(** [s || d] on a [string | null]: [null] and the empty string are falsy. *)
Definition or_string (s : option string) (d : string) : string :=
  match s with
  | Some EmptyString | None => d
  | Some x => x
  end.

(** [n || 0] on an integer or [null]: [null] and [0] both give [0]. *)
Definition or_zero (n : option Z) : Z :=
  match n with Some z => z | None => 0 end.

(** The numbers [parseInt] returns. *)
Inductive number :=
| Int (z : Z)
| NaN.

(** [!n] on a [number | null]: [null], [0] and [NaN] are falsy. *)
Definition falsy_number (n : option number) : bool :=
  match n with
  | Some (Int z) => Z.eqb z 0
  | Some NaN => true
  | None => true
  end.

(** [n <= 0]: [null] converts to [0], and no comparison holds of [NaN]. *)
Definition le_zero (n : option number) : bool :=
  match n with
  | Some (Int z) => Z.leb z 0
  | Some NaN => false
  | None => true
  end.

End Js.

(** ** The guest page: [validateForm] *)

Module Rsvp.

Module Invite.
Record t := Build {
  id : Z;
  nom : option string;
  mairie : option bool;
  cocktail : option bool;
  chateau : option bool;
  brunch : option bool;
  fk_invitation : string;
  autorisation_ia : option bool
}.
End Invite.

Module Invitation.
Record t := Build {
  id : string;
  nom : option string;
  type : option string;
  regime : option string;
  allergie : option string;
  hebergement : option bool;
  herbergement_nombre : option Js.number;
  link_music : option string;
  confirmed_at : option string
}.
End Invitation.

(** What one run of [validateForm] does: either it reaches [return true],
    or it calls [alert msg] once and returns [false]. *)
Inductive outcome :=
| Pass
| Alert (msg : string).

Definition returns (o : outcome) : bool :=
  match o with Pass => true | Alert _ => false end.

(** Sequencing of statements with early return. *)
Definition andThen (o : outcome) (k : outcome) : outcome :=
  match o with Pass => k | Alert m => Alert m end.

Notation "c ;> k" := (andThen c k) (at level 90, right associativity).

(** [if (c) { alert(msg); return false; }] *)
Definition failIf (c : bool) (msg : string) : outcome :=
  if c then Alert msg else Pass.

(** [for (const invite of invites) { body }] where [body] may return. *)
Fixpoint forOf (body : Invite.t -> outcome) (invites : list Invite.t) : outcome :=
  match invites with
  | [] => Pass
  | invite :: rest => body invite ;> forOf body rest
  end.

Definition who (invite : Invite.t) : string :=
  Js.or_string (Invite.nom invite) "l'invité".

Definition checkSamedi01 (invite : Invite.t) : outcome :=
  failIf (Js.is_null (Invite.mairie invite))
    ("Veuillez confirmer votre présence à la mairie pour " +:+ who invite) ;>
  failIf (Js.is_null (Invite.cocktail invite))
    ("Veuillez confirmer votre présence au cocktail pour " +:+ who invite).

Definition checkSamedi08 (invite : Invite.t) : outcome :=
  failIf (Js.is_null (Invite.chateau invite))
    ("Veuillez confirmer votre présence pour samedi 08 pour " +:+ who invite).

Definition checkIA (invite : Invite.t) : outcome :=
  failIf (Js.is_null (Invite.autorisation_ia invite))
    ("Veuillez répondre à la question sur l'IA pour " +:+ who invite).

Definition msgHebergement : string :=
  "Veuillez confirmer si vous dormez au château".

Definition msgNombre : string :=
  "Veuillez indiquer le nombre de personnes pour l'hébergement".

(** [invitation && (invitation.type === "full" ||
                    invitation.type === "partial-mairie")] *)
Definition isMailleInvited (invitation : option Invitation.t) : bool :=
  match invitation with
  | Some inv =>
      Js.str_is (Invitation.type inv) "full"
      || Js.str_is (Invitation.type inv) "partial-mairie"
  | None => false
  end.

(** [invitation?.hebergement === null]: with no invitation the optional
    chain gives [undefined], which is not [=== null]. *)
Definition hebergementNull (invitation : option Invitation.t) : bool :=
  match invitation with
  | Some inv => Js.is_null (Invitation.hebergement inv)
  | None => false
  end.

(** [invitation?.hebergement === true &&
     (!invitation.herbergement_nombre || invitation.herbergement_nombre <= 0)] *)
Definition nombreManquant (invitation : option Invitation.t) : bool :=
  match invitation with
  | Some inv =>
      Js.is_true (Invitation.hebergement inv)
      && (Js.falsy_number (Invitation.herbergement_nombre inv)
          || Js.le_zero (Invitation.herbergement_nombre inv))
  | None => false
  end.

Definition validateForm (invitation : option Invitation.t)
    (invites : list Invite.t) : outcome :=
  (if isMailleInvited invitation then forOf checkSamedi01 invites else Pass) ;>
  forOf checkSamedi08 invites ;>
  forOf checkIA invites ;>
  failIf (hebergementNull invitation) msgHebergement ;>
  failIf (nombreManquant invitation) msgNombre ;>
  Pass.

End Rsvp.

(** ** The administrator dashboard: statistics over the fetched snapshot *)

Module Admin.

Module Invite.
Record t := Build {
  id : Z;
  nom : option string;
  mairie : option bool;
  cocktail : option bool;
  chateau : option bool;
  brunch : option bool;
  autorisation_ia : option bool;
  fk_invitation : string
}.
End Invite.

Module InvitationData.
Record t := Build {
  id : string;
  nom : option string;
  type : option string;
  regime : option string;
  allergie : option string;
  hebergement : option bool;
  herbergement_nombre : option Z;
  link_music : option string;
  confirmed_at : option string;
  url : option string;
  invites : list Invite.t
}.
End InvitationData.

Module Counter.
Record t := Build { accepted : Z; refused : Z; total : Z }.
End Counter.

Module RegimeGroup.
Record t := Build { count : Z; invitations : list string }.
End RegimeGroup.

Module Stats.
Record t := Build {
  complete : Counter.t;
  mairie : Counter.t;
  chateau : Counter.t;
  accommodation : Z;
  regimes : gmap string RegimeGroup.t
}.
End Stats.

(** *** Exceptions *)

Inductive exn :=
| TypeError.

Inductive completion (A : Type) :=
| Normal (a : A)
| Throw (e : exn).
Arguments Normal {A} a.
Arguments Throw {A} e.

Definition mapCompletion {A B : Type} (f : A -> B) (c : completion A) : completion B :=
  match c with Normal a => Normal (f a) | Throw e => Throw e end.

(** [l.forEach(f)] where the callback updates the state [S] and may throw:
    the first exception ends the loop. *)
Fixpoint forEach {A S : Type} (f : S -> A -> completion S) (l : list A) (s : S)
    : completion S :=
  match l with
  | [] => Normal s
  | x :: rest =>
      match f s x with
      | Normal s' => forEach f rest s'
      | Throw e => Throw e
      end
  end.

(** *** [String.prototype.trim] and the members of [Object.prototype] *)

Definition byte (c : ascii) : N := N_of_ascii c.

(** TAB, LF, VT, FF, CR and SPACE. *)
Definition ws1 (a : ascii) : bool :=
  let a := byte a in
  ((9 <=? a) && (a <=? 13) || (a =? 32))%N.

(** U+00A0, encoded on two bytes. *)
Definition ws2 (a b : ascii) : bool :=
  ((byte a =? 194) && (byte b =? 160))%N.

(** U+1680, U+2000 to U+200A, U+2028, U+2029, U+202F, U+205F, U+3000 and
    U+FEFF, encoded on three bytes. *)
Definition ws3 (a b c : ascii) : bool :=
  let a := byte a in
  let b := byte b in
  let c := byte c in
  ((a =? 225) && (b =? 154) && (c =? 128)
   || (a =? 226) && (b =? 128)
      && ((128 <=? c) && (c <=? 138) || (c =? 168) || (c =? 169) || (c =? 175))
   || (a =? 226) && (b =? 129) && (c =? 159)
   || (a =? 227) && (b =? 128) && (c =? 128)
   || (a =? 239) && (b =? 187) && (c =? 191))%N.

(** The string without its leading white space and line terminators. *)
Fixpoint trimStart (s : string) : string :=
  match s with
  | EmptyString => s
  | String a r1 =>
      if ws1 a then trimStart r1 else
      match r1 with
      | EmptyString => s
      | String b r2 =>
          if ws2 a b then trimStart r2 else
          match r2 with
          | EmptyString => s
          | String c r3 => if ws3 a b c then trimStart r3 else s
          end
      end
  end.

Definition nonEmpty (s : string) : bool :=
  match s with EmptyString => false | String _ _ => true end.

(** Whether [s.trim()] is truthy: something is left once the leading white
    space is gone (what [trim] removes at the end cannot empty it then). *)
Definition trimTruthy (s : string) : bool := nonEmpty (trimStart s).

(** The property names an object literal inherits from [Object.prototype]:
    [stats.regimes[k]] is a function (or, for [__proto__], the prototype
    itself) for these [k], although [stats.regimes] has no such key. *)
Definition objectPrototypeKeys : list string :=
  [ "constructor"; "__defineGetter__"; "__defineSetter__"; "hasOwnProperty";
    "__lookupGetter__"; "__lookupSetter__"; "isPrototypeOf";
    "propertyIsEnumerable"; "toString"; "valueOf"; "__proto__";
    "toLocaleString" ].

Definition inherited (k : string) : bool :=
  existsb (String.eqb k) objectPrototypeKeys.

(** *** [calculateStats] *)

(** [c.total += 1;
     if (answer === true) c.accepted += 1;
     if (answer === false) c.refused += 1;] *)
Definition tally (answer : option bool) (c : Counter.t) : Counter.t :=
  let c := Counter.Build (Counter.accepted c) (Counter.refused c) (Counter.total c + 1) in
  let c := if Js.is_true answer
           then Counter.Build (Counter.accepted c + 1) (Counter.refused c) (Counter.total c)
           else c in
  let c := if Js.is_false answer
           then Counter.Build (Counter.accepted c) (Counter.refused c + 1) (Counter.total c)
           else c in
  c.

Definition onComplete (f : Counter.t -> Counter.t) (s : Stats.t) : Stats.t :=
  Stats.Build (f (Stats.complete s)) (Stats.mairie s) (Stats.chateau s)
    (Stats.accommodation s) (Stats.regimes s).

Definition onMairie (f : Counter.t -> Counter.t) (s : Stats.t) : Stats.t :=
  Stats.Build (Stats.complete s) (f (Stats.mairie s)) (Stats.chateau s)
    (Stats.accommodation s) (Stats.regimes s).

Definition onChateau (f : Counter.t -> Counter.t) (s : Stats.t) : Stats.t :=
  Stats.Build (Stats.complete s) (Stats.mairie s) (f (Stats.chateau s))
    (Stats.accommodation s) (Stats.regimes s).

Definition onAccommodation (f : Z -> Z) (s : Stats.t) : Stats.t :=
  Stats.Build (Stats.complete s) (Stats.mairie s) (Stats.chateau s)
    (f (Stats.accommodation s)) (Stats.regimes s).

Definition onRegimes (f : gmap string RegimeGroup.t -> gmap string RegimeGroup.t)
    (s : Stats.t) : Stats.t :=
  Stats.Build (Stats.complete s) (Stats.mairie s) (Stats.chateau s)
    (Stats.accommodation s) (f (Stats.regimes s)).

Definition isFull (inv : InvitationData.t) : bool :=
  Js.str_is (InvitationData.type inv) "full".

Definition isMairie (inv : InvitationData.t) : bool :=
  Js.str_is (InvitationData.type inv) "full"
  || Js.str_is (InvitationData.type inv) "partial-mairie".

Definition isChateau (inv : InvitationData.t) : bool :=
  Js.str_is (InvitationData.type inv) "full"
  || Js.str_is (InvitationData.type inv) "partial-chateau".

(** The body of [inv.invites.forEach((invite) => ...)]. *)
Definition countInvite (inv : InvitationData.t) (stats : Stats.t)
    (invite : Invite.t) : Stats.t :=
  let stats := if isFull inv
               then onComplete (tally (Invite.chateau invite)) stats else stats in
  let stats := if isMairie inv
               then onMairie (tally (Invite.mairie invite)) stats else stats in
  let stats := if isChateau inv
               then onChateau (tally (Invite.chateau invite)) stats else stats in
  stats.

(** [if (inv.hebergement === true)
      stats.accommodation += inv.herbergement_nombre || 0;] *)
Definition countAccommodation (inv : InvitationData.t) (stats : Stats.t) : Stats.t :=
  if Js.is_true (InvitationData.hebergement inv)
  then onAccommodation
         (fun a => a + Js.or_zero (InvitationData.herbergement_nombre inv)) stats
  else stats.

(** The regime block.  [stats.regimes[r]] finds an own entry, or else a
    member of [Object.prototype], or else [undefined].  Only in the last
    case is an entry created.  For an inherited member [.count += 1] is
    harmless, but [.invitations] is [undefined] and [.push] throws. *)
Definition collectRegime (inv : InvitationData.t) (stats : Stats.t)
    : completion Stats.t :=
  match InvitationData.regime inv with
  | Some r =>
      if nonEmpty r && trimTruthy r then
        let who := Js.or_string (InvitationData.nom inv) "" in
        match Stats.regimes stats !! r with
        | Some g =>
            Normal (onRegimes
              (insert r (RegimeGroup.Build (RegimeGroup.count g + 1)
                                           (RegimeGroup.invitations g ++ [who])))
              stats)
        | None =>
            if inherited r then Throw TypeError
            else Normal (onRegimes
                   (insert r (RegimeGroup.Build (0 + 1) ([] ++ [who]))) stats)
        end
      else Normal stats
  | None => Normal stats
  end.

(** The body of [invitations.forEach((inv) => ...)]. *)
Definition countInvitation (stats : Stats.t) (inv : InvitationData.t)
    : completion Stats.t :=
  let stats := fold_left (countInvite inv) (InvitationData.invites inv) stats in
  let stats := countAccommodation inv stats in
  collectRegime inv stats.

Definition zeroCounter : Counter.t := Counter.Build 0 0 0.

Definition emptyStats : Stats.t :=
  Stats.Build zeroCounter zeroCounter zeroCounter 0 ∅.

Definition calculateStats (invitations : list InvitationData.t)
    : completion Stats.t :=
  forEach countInvitation invitations emptyStats.

(** *** [getStatsDetails] and [getAccommodationDetails] *)

Inductive statsType := TMairie | TChateau.
Inductive statsStatus := Accepted | Refused.

Module Person.
Record t := Build { nom : string; invitationNom : string }.
End Person.

Module Accommodation.
Record t := Build { nom : string; nombre : Z }.
End Accommodation.

Definition isAccepted (status : statsStatus) : bool :=
  match status with Accepted => true | Refused => false end.

Definition isRefused (status : statsStatus) : bool :=
  match status with Refused => true | Accepted => false end.

(** The value of [include] at the end of the inner loop body. *)
Definition include (type : statsType) (status : statsStatus)
    (inv : InvitationData.t) (invite : Invite.t) : bool :=
  match type with
  | TMairie =>
      if isMairie inv && isAccepted status && Js.is_true (Invite.mairie invite)
      then true
      else if isMairie inv && isRefused status && Js.is_false (Invite.mairie invite)
      then true
      else false
  | TChateau =>
      if isChateau inv && isAccepted status && Js.is_true (Invite.chateau invite)
      then true
      else if isChateau inv && isRefused status && Js.is_false (Invite.chateau invite)
      then true
      else false
  end.

Definition pushPerson (type : statsType) (status : statsStatus)
    (inv : InvitationData.t) (people : list Person.t) (invite : Invite.t)
    : list Person.t :=
  if include type status inv invite
  then people ++ [Person.Build (Js.or_string (Invite.nom invite) "Invité")
                               (Js.or_string (InvitationData.nom inv) "Invitation")]
  else people.

Definition getStatsDetails (type : statsType) (status : statsStatus)
    (invitations : list InvitationData.t) : list Person.t :=
  fold_left
    (fun people inv =>
       fold_left (pushPerson type status inv) (InvitationData.invites inv) people)
    invitations [].

Definition pushAccommodation (accommodations : list Accommodation.t)
    (inv : InvitationData.t) : list Accommodation.t :=
  if Js.is_true (InvitationData.hebergement inv)
  then accommodations
         ++ [Accommodation.Build (Js.or_string (InvitationData.nom inv) "Invitation")
                                 (Js.or_zero (InvitationData.herbergement_nombre inv))]
  else accommodations.

Definition getAccommodationDetails (invitations : list InvitationData.t)
    : list Accommodation.t :=
  fold_left pushAccommodation invitations [].

End Admin.

(** ** The submission endpoint: [POST] of route.ts *)

Module Api.

(** src/types/invite.ts *)
Inductive InviteType :=
| full
| partial_mairie
| partial_chateau.

Module Invite.
Record t := Build {
  id : string;
  nom : list string;
  type : InviteType;
  token_hash : string;
  mairie : option bool;
  cocktail : option bool;
  chateau : option bool;
  regime : option string;
  allergie : option string;
  hebergement : option bool;
  brunch : option bool;
  confirmed_at : option string
}.
End Invite.

(** A parsed JSON value, what [req.json()] resolves to.  The handler
    annotates it as [RSVPBody], but nothing checks that at run time.  A
    number is kept as its literal. *)
#[local] Unset Elimination Schemes.
Inductive jsonValue :=
| JNull
| JBool (b : bool)
| JNumber (literal : string)
| JString (s : string)
| JArray (items : list jsonValue)
| JObject (members : list (string * jsonValue)).
#[local] Set Elimination Schemes.

(** The member named [k] of a parsed object; of several members with one
    name [JSON.parse] keeps the last. *)
Fixpoint lastMember (k : string) (members : list (string * jsonValue))
    : option jsonValue :=
  match members with
  | [] => None
  | (k', v) :: rest =>
      match lastMember k rest with
      | Some w => Some w
      | None => if String.eqb k' k then Some v else None
      end
  end.

(** [body.k] for a [body] other than [null], where [k] is one of the eight
    names the handler reads: the member of an object, and [undefined]
    ([None]) when the object has none or [body] is a boolean, a number, a
    string or an array. *)
Definition get (k : string) (body : jsonValue) : option jsonValue :=
  match body with
  | JObject members => lastMember k members
  | _ => None
  end.

(** What the handler may throw: [req.json()] rejects with a [SyntaxError];
    reading a member of [null] and hashing something that is not a string
    throw a [TypeError]. *)
Inductive exn :=
| SyntaxError
| TypeError.

Inductive completion (A : Type) :=
| Normal (a : A)
| Throw (e : exn).
Arguments Normal {A} a.
Arguments Throw {A} e.

(** The object handed to [.update(...)].  A member whose value is
    [undefined] is dropped when the object is serialised: [None] here.
    Every other value, [null] included, is sent as it is. *)
Module Patch.
Record t := Build {
  mairie : option jsonValue;
  cocktail : option jsonValue;
  chateau : option jsonValue;
  regime : option jsonValue;
  allergie : option jsonValue;
  hebergement : option jsonValue;
  brunch : option jsonValue;
  confirmed_at : string
}.
End Patch.

(** Modelled from the spec: how the store reads a JSON value sent for a
    boolean or a text column.  [Some v] is the value stored ([Some None]
    for SQL [NULL]); [None] means the store refuses the value, and
    [refusal] is the message of the error it then reports. *)
Module Codec.
Record t := Build {
  boolean : jsonValue -> option (option bool);
  text : jsonValue -> option (option string);
  refusal : jsonValue -> string
}.
End Codec.

(** The patch as the store has read it: for each column, [None] when the
    member was not sent, else the value to store. *)
Module Columns.
Record t := Build {
  mairie : option (option bool);
  cocktail : option (option bool);
  chateau : option (option bool);
  regime : option (option string);
  allergie : option (option string);
  hebergement : option (option bool);
  brunch : option (option bool);
  confirmed_at : string
}.
End Columns.

(** One member read by the store. *)
Definition readMember {A : Type} (read : jsonValue -> option (option A))
    (refusal : jsonValue -> string) (member : option jsonValue)
    : string + option (option A) :=
  match member with
  | None => inr None
  | Some v =>
      match read v with
      | Some x => inr (Some x)
      | None => inl (refusal v)
      end
  end.

Definition andRead {A B : Type} (r : string + A) (k : A -> string + B) : string + B :=
  match r with
  | inl msg => inl msg
  | inr a => k a
  end.

(** The whole patch read by the store: the first refused member decides. *)
Definition readPatch (codec : Codec.t) (p : Patch.t) : string + Columns.t :=
  let boolean := readMember (Codec.boolean codec) (Codec.refusal codec) in
  let text := readMember (Codec.text codec) (Codec.refusal codec) in
  andRead (boolean (Patch.mairie p)) (fun mairie =>
  andRead (boolean (Patch.cocktail p)) (fun cocktail =>
  andRead (boolean (Patch.chateau p)) (fun chateau =>
  andRead (text (Patch.regime p)) (fun regime =>
  andRead (text (Patch.allergie p)) (fun allergie =>
  andRead (boolean (Patch.hebergement p)) (fun hebergement =>
  andRead (boolean (Patch.brunch p)) (fun brunch =>
  inr (Columns.Build mairie cocktail chateau regime allergie hebergement brunch
         (Patch.confirmed_at p))))))))).

(** [v] written over the column, or the column kept when the member was
    not sent. *)
Definition written {A : Type} (v : option (option A)) (column : option A)
    : option A :=
  match v with Some x => x | None => column end.

Definition applyPatch (p : Columns.t) (row : Invite.t) : Invite.t :=
  Invite.Build (Invite.id row) (Invite.nom row) (Invite.type row)
    (Invite.token_hash row)
    (written (Columns.mairie p) (Invite.mairie row))
    (written (Columns.cocktail p) (Invite.cocktail row))
    (written (Columns.chateau p) (Invite.chateau row))
    (written (Columns.regime p) (Invite.regime row))
    (written (Columns.allergie p) (Invite.allergie row))
    (written (Columns.hebergement p) (Invite.hebergement row))
    (written (Columns.brunch p) (Invite.brunch row))
    (Some (Columns.confirmed_at p)).

Module Supabase.

(** Modelled from the spec: the record store behind [@/lib/supabase],
    "an external collaborator exposing record read/update operations
    keyed by identifiers or token hashes".  [invites] is the table,
    [received] the update requests the store has been sent so far, and
    [faults] what the store will report for the coming requests
    ([Some msg] for an error with that message, [None] or nothing for
    none). *)
Record t := Build {
  invites : list Invite.t;
  received : list (Patch.t * string);
  faults : list (option string)
}.

Definition nextFault (db : t) : option string :=
  match faults db with
  | f :: _ => f
  | [] => None
  end.

(** Modelled from the spec: [.from("invites").update(p).eq("token_hash", h)].
    A request fails when the store is at fault or refuses one of the values
    sent, and then changes no row; one that succeeds patches every row whose
    [token_hash] equals [h].  The result is the [error] member of the reply,
    [None] standing for [null]. *)
Definition update (codec : Codec.t) (p : Patch.t) (h : string) (db : t)
    : option string * t :=
  match nextFault db with
  | Some msg =>
      (Some msg, Build (invites db) (received db ++ [(p, h)]) (tail (faults db)))
  | None =>
      match readPatch codec p with
      | inl msg =>
          (Some msg, Build (invites db) (received db ++ [(p, h)]) (tail (faults db)))
      | inr columns =>
          (None,
           Build (map (fun row => if String.eqb (Invite.token_hash row) h
                                  then applyPatch columns row else row)
                      (invites db))
                 (received db ++ [(p, h)]) (tail (faults db)))
      end
  end.

End Supabase.

Inductive Json :=
| JsonError (error : string)
| JsonOk (ok : bool).

Module Response.
Record t := Build { status : Z; body : Json }.
End Response.

(** [Response.json(data, { status })]; the status defaults to 200. *)
Definition json (data : Json) (status : option Z) : Response.t :=
  Response.Build (match status with Some c => c | None => 200 end) data.

(** The object literal of the handler, built from the parsed body. *)
Definition updateObject (body : jsonValue) (now : string) : Patch.t :=
  Patch.Build (get "mairie" body) (get "cocktail" body) (get "chateau" body)
    (get "regime" body) (get "allergie" body) (get "hebergement" body)
    (get "brunch" body) now.

Section Endpoint.

Variable codec : Codec.t.

(** [crypto.createHash("sha256").update(token).digest("hex")] for a string
    [token]; [update] throws on anything else. *)
Variable sha256hex : string -> string.

(** [POST(req)] where [req] is what the body of the request parses to
    ([None] when it does not parse), [now] the value of
    [new Date().toISOString()] and [db] the state of the store.  The handler
    has no [try]: an exception leaves it without a response, the store not
    having been called. *)
Definition POST (req : option jsonValue) (now : string) (db : Supabase.t)
    : completion (Response.t * Supabase.t) :=
  match req with
  | None => Throw SyntaxError
  | Some JNull => Throw TypeError
  | Some body =>
      match get "token" body with
      | Some (JString token) =>
          let tokenHash := sha256hex token in
          let '(error, db) :=
            Supabase.update codec (updateObject body now) tokenHash db in
          match error with
          | Some message => Normal (json (JsonError message) (Some 500), db)
          | None => Normal (json (JsonOk true) None, db)
          end
      | _ => Throw TypeError
      end
  end.

End Endpoint.

End Api.

(** ** The specification's reading of the validator, and the code's *)

Module RsvpSpec.
Import Rsvp.

(** The required-answer table of the specification, column by column. *)
Definition townHallRequired (type : option string) : bool :=
  Js.str_is type "full" || Js.str_is type "partial-mairie".

Definition chateauRequired (type : option string) : bool :=
  Js.str_is type "full" || Js.str_is type "partial-chateau".

(** A guest leaves a tri-state field of the table unanswered. *)
Definition tableFieldMissing (type : option string) (invite : Invite.t) : bool :=
  townHallRequired type
    && (Js.is_null (Invite.mairie invite) || Js.is_null (Invite.cocktail invite))
  || chateauRequired type && Js.is_null (Invite.chateau invite)
  || Js.is_null (Invite.autorisation_ia invite).

(** The accommodation flag is unanswered, or it is accepted while the
    headcount is absent or not positive. *)
Definition accommodationMissing (inv : Invitation.t) : bool :=
  Js.is_null (Invitation.hebergement inv)
  || Js.is_true (Invitation.hebergement inv)
     && match Invitation.herbergement_nombre inv with
        | Some (Js.Int n) => (n <=? 0)%Z
        | Some Js.NaN => true
        | None => true
        end.

(** When the specification says [validate] fails. *)
Definition mustFail (inv : Invitation.t) (invites : list Invite.t) : bool :=
  existsb (tableFieldMissing (Invitation.type inv)) invites
  || accommodationMissing inv.

(** The same with the château answer required whatever the type. *)
Definition fieldMissing (type : option string) (invite : Invite.t) : bool :=
  townHallRequired type
    && (Js.is_null (Invite.mairie invite) || Js.is_null (Invite.cocktail invite))
  || Js.is_null (Invite.chateau invite)
  || Js.is_null (Invite.autorisation_ia invite).

Definition rejects (inv : Invitation.t) (invites : list Invite.t) : bool :=
  existsb (fieldMissing (Invitation.type inv)) invites
  || accommodationMissing inv.

(** Every field the validator looks at is answered on every guest. *)
Definition guestsAnswered (type : option string) (invites : list Invite.t) : Prop :=
  existsb (fieldMissing type) invites = false.

(** The non-attendance preconditions: consent answered, accommodation
    answered, with a positive headcount when accepted. *)
Definition othersAnswered (inv : Invitation.t) (invite : Invite.t) : Prop :=
  Invite.autorisation_ia invite <> None /\ accommodationMissing inv = false.

(** The town-hall scenario: a [partial-mairie] invitation whose one guest
    comes to the town hall, not to the cocktail, and has not touched the
    château and brunch questions. *)
Definition townHallScenario (inv : Invitation.t) (invite : Invite.t) : Prop :=
  Invitation.type inv = Some "partial-mairie"
  /\ Invite.mairie invite = Some true
  /\ Invite.cocktail invite = Some false
  /\ Invite.chateau invite = None
  /\ Invite.brunch invite = None
  /\ othersAnswered inv invite.

(** [updateInvitation("herbergement_nombre", n)] *)
Definition withNombre (n : option Js.number) (inv : Invitation.t) : Invitation.t :=
  Invitation.Build (Invitation.id inv) (Invitation.nom inv) (Invitation.type inv)
    (Invitation.regime inv) (Invitation.allergie inv) (Invitation.hebergement inv)
    n (Invitation.link_music inv) (Invitation.confirmed_at inv).

(** The guest loops of [validateForm], as one boolean. *)
Definition guestLoops (inv : Invitation.t) (invites : list Invite.t) : bool :=
  forallb (fun invite => negb (townHallRequired (Invitation.type inv))
                         || returns (checkSamedi01 invite)) invites
  && forallb (fun invite => returns (checkSamedi08 invite)) invites
  && forallb (fun invite => returns (checkIA invite)) invites.

(** Sample data. *)
Definition alice : Invite.t :=
  Invite.Build 1 (Some "Alice") (Some true) (Some false) None None "inv-1" (Some true).

Definition aliceAtChateau : Invite.t :=
  Invite.Build 1 (Some "Alice") (Some true) (Some false) (Some false) None "inv-1"
    (Some true).

Definition townHallOnly : Invitation.t :=
  Invitation.Build "inv-1" (Some "Famille Martin") (Some "partial-mairie") None None
    (Some false) None None None.

Definition sleepover : Invitation.t :=
  Invitation.Build "inv-2" (Some "Famille Durand") (Some "full") None None
    (Some true) None None None.

(** A [partial-mairie] invitation that accepts accommodation and has no
    headcount yet. *)
Definition townHallSleepover : Invitation.t :=
  Invitation.Build "inv-3" (Some "Famille Petit") (Some "partial-mairie") None None
    (Some true) None None None.

(** Every tri-state field of the specification's table is answered on
    every guest. *)
Definition tableAnswered (type : option string) (invites : list Invite.t) : Prop :=
  existsb (tableFieldMissing type) invites = false.

(** The accommodation-count scenario as the specification states it, with
    the table deciding which guest fields are required. *)
Definition countScenario (inv : Invitation.t) (invites : list Invite.t) : Prop :=
  tableAnswered (Invitation.type inv) invites ->
  Invitation.hebergement inv = Some true ->
  (match Invitation.herbergement_nombre inv with
   | Some (Js.Int n) => n <= 0
   | Some Js.NaN => True
   | None => True
   end -> validateForm (Some inv) invites = Alert msgNombre)
  /\ validateForm (Some (withNombre (Some (Js.Int 2)) inv)) invites = Pass.

End RsvpSpec.

(** ** The specification's reading of the aggregator *)

Module AdminSpec.
Import Admin.

Inductive category :=
| Complete
| Mairie
| Chateau.

(** Whether a guest of invitation [inv] counts for the category. *)
Definition applicable (cat : category) (inv : InvitationData.t) : bool :=
  match cat with
  | Complete => Js.str_is (InvitationData.type inv) "full"
  | Mairie =>
      Js.str_is (InvitationData.type inv) "full"
      || Js.str_is (InvitationData.type inv) "partial-mairie"
  | Chateau =>
      Js.str_is (InvitationData.type inv) "full"
      || Js.str_is (InvitationData.type inv) "partial-chateau"
  end.

(** The answer the category looks at. *)
Definition answer (cat : category) (invite : Invite.t) : option bool :=
  match cat with
  | Complete => Invite.chateau invite
  | Mairie => Invite.mairie invite
  | Chateau => Invite.chateau invite
  end.

Definition counter (cat : category) (stats : Stats.t) : Counter.t :=
  match cat with
  | Complete => Stats.complete stats
  | Mairie => Stats.mairie stats
  | Chateau => Stats.chateau stats
  end.

(** Every guest of the snapshot, with the invitation that owns it. *)
Definition guests (invitations : list InvitationData.t)
    : list (InvitationData.t * Invite.t) :=
  flat_map (fun inv => map (pair inv) (InvitationData.invites inv)) invitations.

(** The number of guests the category applies to whose answer passes [ok]. *)
Definition howMany (cat : category) (ok : option bool -> bool)
    (invitations : list InvitationData.t) : Z :=
  Z.of_nat (length (List.filter
                      (fun p => applicable cat (fst p) && ok (answer cat (snd p)))
                      (guests invitations))).

Definition anyAnswer (a : option bool) : bool := true.

Definition sumZ (l : list Z) : Z := fold_right Z.add 0 l.

(** The headcounts of the invitations that accepted accommodation, a
    [null] headcount standing for 0. *)
Definition headcounts (invitations : list InvitationData.t) : list Z :=
  map (fun inv => Js.or_zero (InvitationData.herbergement_nombre inv))
      (List.filter (fun inv => Js.is_true (InvitationData.hebergement inv))
                   invitations).

(** The four numbers of [Stats] that the counter claims are about. *)
Definition counters (stats : Stats.t) : Counter.t * Counter.t * Counter.t * Z :=
  (Stats.complete stats, Stats.mairie stats, Stats.chateau stats,
   Stats.accommodation stats).

Definition leCounter (c d : Counter.t) : Prop :=
  Counter.accepted c <= Counter.accepted d
  /\ Counter.refused c <= Counter.refused d
  /\ Counter.total c <= Counter.total d.

(** The invitations on which the regime block throws: a non-blank regime
    that names a member of [Object.prototype]. *)
Definition poisoned (inv : InvitationData.t) : bool :=
  match InvitationData.regime inv with
  | Some r => nonEmpty r && trimTruthy r && inherited r
  | None => false
  end.

(** No key of the regime table is a member of [Object.prototype]. *)
Definition ownKeysOnly (stats : Stats.t) : Prop :=
  forall k, inherited k = true -> Stats.regimes stats !! k = None.

(** *** The loops of [calculateStats] on the counters alone *)

Definition tallyAll (applies : bool) (field : Invite.t -> option bool)
    (invites : list Invite.t) (c : Counter.t) : Counter.t :=
  fold_left (fun c invite => if applies then tally (field invite) c else c)
            invites c.

Definition countersStep (k : Counter.t * Counter.t * Counter.t * Z)
    (inv : InvitationData.t) : Counter.t * Counter.t * Counter.t * Z :=
  let '(complete, mairie, chateau, accommodation) := k in
  (tallyAll (isFull inv) Invite.chateau (InvitationData.invites inv) complete,
   tallyAll (isMairie inv) Invite.mairie (InvitationData.invites inv) mairie,
   tallyAll (isChateau inv) Invite.chateau (InvitationData.invites inv) chateau,
   if Js.is_true (InvitationData.hebergement inv)
   then accommodation + Js.or_zero (InvitationData.herbergement_nombre inv)
   else accommodation).

Definition tallyInvitations (applies : InvitationData.t -> bool)
    (field : Invite.t -> option bool) (invitations : list InvitationData.t)
    (c : Counter.t) : Counter.t :=
  fold_left (fun c inv => tallyAll (applies inv) field (InvitationData.invites inv) c)
            invitations c.

Definition count (p : Invite.t -> bool) (invites : list Invite.t) : Z :=
  Z.of_nat (length (List.filter p invites)).

(** What one invitation adds to each number. *)
Definition share (cat : category) (ok : option bool -> bool)
    (inv : InvitationData.t) : Z :=
  count (fun invite => applicable cat inv && ok (answer cat invite))
        (InvitationData.invites inv).

Definition headcountShare (inv : InvitationData.t) : Z :=
  if Js.is_true (InvitationData.hebergement inv)
  then Js.or_zero (InvitationData.herbergement_nombre inv) else 0.

(** The counter a detail query is shown next to. *)
Definition categoryOf (type : statsType) : category :=
  match type with TMairie => Mairie | TChateau => Chateau end.

Definition fieldOf (status : statsStatus) (c : Counter.t) : Z :=
  match status with
  | Accepted => Counter.accepted c
  | Refused => Counter.refused c
  end.

Definition statusTest (status : statsStatus) : option bool -> bool :=
  match status with Accepted => Js.is_true | Refused => Js.is_false end.

(** *** Sample data *)

Definition guest (n : Z) (name : string) (mairie chateau : option bool) : Invite.t :=
  Invite.Build n (Some name) mairie None chateau None None "x".

Definition martin : InvitationData.t :=
  InvitationData.Build "inv-1" (Some "Famille Martin") (Some "full")
    (Some "Végétarien") None (Some true) (Some 2) None None None
    [guest 1 "Alice" (Some true) (Some true);
     guest 2 "Bruno" (Some false) None].

Definition durand : InvitationData.t :=
  InvitationData.Build "inv-2" (Some "Famille Durand") (Some "partial-chateau")
    None None (Some true) None None None None
    [guest 3 "Chloé" None (Some false)].

Definition petit : InvitationData.t :=
  InvitationData.Build "inv-3" None (Some "partial-mairie")
    (Some "Halal") None (Some false) (Some 4) None None None
    [guest 4 "David" (Some true) (Some true)].

(** A guest who typed [toString] as the dietary regime. *)
Definition farceur : InvitationData.t :=
  InvitationData.Build "inv-4" (Some "Oncle Jean") (Some "full")
    (Some "toString") None None None None None None
    [guest 5 "Jean" (Some true) (Some true)].

Definition snapshot : list InvitationData.t := [martin; durand; petit].

Definition shuffled : list InvitationData.t := [petit; martin; durand].

(** What [calculateStats] returns on [snapshot]. *)
Definition snapshotStats : Stats.t :=
  match calculateStats snapshot with
  | Normal stats => stats
  | Throw _ => emptyStats
  end.

End AdminSpec.

(** ** Sample requests for the endpoint *)

Module ApiSpec.
Import Api.

Definition row (h : string) : Invite.t :=
  Invite.Build "1" ["Alice"] partial_mairie h (Some true) None None None None
    None None None.

(** A request that omits every answer: [{"token": token}]. *)
Definition bare (token : string) : jsonValue :=
  JObject [("token", JString token)].

Definition healthy (rows : list Invite.t) : Supabase.t :=
  Supabase.Build rows [] [].

(** A store that fails once, then recovers. *)
Definition flaky (rows : list Invite.t) : Supabase.t :=
  Supabase.Build rows [] [Some "connection refused"; None].

(** A stand-in for the digest in examples. *)
Definition tag (token : string) : string := "h:" +:+ token.

(** A store that takes booleans and [null] for a boolean column, strings
    and [null] for a text column, and refuses everything else. *)
Definition strict : Codec.t :=
  Codec.Build
    (fun v => match v with
              | JBool b => Some (Some b)
              | JNull => Some None
              | _ => None
              end)
    (fun v => match v with
              | JString s => Some (Some s)
              | JNull => Some None
              | _ => None
              end)
    (fun _ => "invalid input syntax").

(** The token a request carries: the string member [token] of a body that
    parses to something other than [null].  Without one the handler throws
    what is given here. *)
Definition tokenOf (req : option jsonValue) : completion string :=
  match req with
  | None => Throw SyntaxError
  | Some JNull => Throw TypeError
  | Some body =>
      match get "token" body with
      | Some (JString token) => Normal token
      | _ => Throw TypeError
      end
  end.

(** The update request [POST] sends for a body received at time [now]. *)
Definition request (sha256hex : string -> string) (body : jsonValue)
    (token now : string) : Patch.t * string :=
  (updateObject body now, sha256hex token).

(** What the store reports for that request: an error message, or [None]. *)
Definition reported (codec : Codec.t) (sha256hex : string -> string)
    (body : jsonValue) (token now : string) (db : Supabase.t) : option string :=
  fst (Supabase.update codec (updateObject body now) (sha256hex token) db).

Definition errorResponse (message : string) : Response.t :=
  Response.Build 500 (JsonError message).

Definition okResponse : Response.t := Response.Build 200 (JsonOk true).

Definition matches (h : string) (r : Invite.t) : bool :=
  String.eqb (Invite.token_hash r) h.

(** How a row after a successful call relates to the row before. *)
Definition stamped (h now : string) (old new : Invite.t) : Prop :=
  if matches h old
  then Invite.confirmed_at new = Some now
  else new = old.

(** The columns of a row other than [confirmed_at]. *)
Definition answers (r : Invite.t) :=
  (Invite.id r, Invite.nom r, Invite.type r, Invite.token_hash r,
   Invite.mairie r, Invite.cocktail r, Invite.chateau r,
   (Invite.regime r, Invite.allergie r, Invite.hebergement r, Invite.brunch r)).

(** The claim of the specification about the outcomes, at one request:
    the handler answers, with status 500 and the store's message when the
    store reports an error and with [{ ok: true }] when it reports none. *)
Definition twoOutcomes (codec : Codec.t) (sha256hex : string -> string)
    (req : option jsonValue) (now : string) (db : Supabase.t) : Prop :=
  exists response db',
    POST codec sha256hex req now db = Normal (response, db')
    /\ (response = okResponse \/ exists message, response = errorResponse message).

(** The claim about the missing validation, at one request body: if the
    store reports no error for the update object built from the body, the
    handler answers [{ ok: true }]. *)
Definition alwaysOk (codec : Codec.t) (sha256hex : string -> string)
    (body : jsonValue) (now : string) (db : Supabase.t) : Prop :=
  (forall h, fst (Supabase.update codec (updateObject body now) h db) = None) ->
  exists db', POST codec sha256hex (Some body) now db = Normal (okResponse, db').

End ApiSpec.

(** ** The guest page: state, handlers, loading and submission *)

Module Guest.
Import Rsvp.

(** *** Handlers of the form *)

(** The fields [updateInvite] is called with. *)
Inductive answerField :=
| FMairie
| FCocktail
| FChateau
| FBrunch
| FAutorisationIa.

(** [{ ...inv, [field]: value }] *)
Definition setField (field : answerField) (value : option bool) (inv : Invite.t)
    : Invite.t :=
  match field with
  | FMairie =>
      Invite.Build (Invite.id inv) (Invite.nom inv) value (Invite.cocktail inv)
        (Invite.chateau inv) (Invite.brunch inv) (Invite.fk_invitation inv)
        (Invite.autorisation_ia inv)
  | FCocktail =>
      Invite.Build (Invite.id inv) (Invite.nom inv) (Invite.mairie inv) value
        (Invite.chateau inv) (Invite.brunch inv) (Invite.fk_invitation inv)
        (Invite.autorisation_ia inv)
  | FChateau =>
      Invite.Build (Invite.id inv) (Invite.nom inv) (Invite.mairie inv)
        (Invite.cocktail inv) value (Invite.brunch inv) (Invite.fk_invitation inv)
        (Invite.autorisation_ia inv)
  | FBrunch =>
      Invite.Build (Invite.id inv) (Invite.nom inv) (Invite.mairie inv)
        (Invite.cocktail inv) (Invite.chateau inv) value (Invite.fk_invitation inv)
        (Invite.autorisation_ia inv)
  | FAutorisationIa =>
      Invite.Build (Invite.id inv) (Invite.nom inv) (Invite.mairie inv)
        (Invite.cocktail inv) (Invite.chateau inv) (Invite.brunch inv)
        (Invite.fk_invitation inv) value
  end.

Definition getField (field : answerField) (inv : Invite.t) : option bool :=
  match field with
  | FMairie => Invite.mairie inv
  | FCocktail => Invite.cocktail inv
  | FChateau => Invite.chateau inv
  | FBrunch => Invite.brunch inv
  | FAutorisationIa => Invite.autorisation_ia inv
  end.

(** [prev.map((inv) => (inv.id === id ? { ...inv, [field]: value } : inv))] *)
Definition updateInvite (id : Z) (field : answerField) (value : option bool)
    (prev : list Invite.t) : list Invite.t :=
  map (fun inv => if Z.eqb (Invite.id inv) id then setField field value inv else inv)
      prev.

(** The calls of [updateInvitation] in the page, with the value each passes. *)
Inductive invitationField :=
| Regime (value : string)
| Allergie (value : string)
| Hebergement (value : bool)
| HerbergementNombre (value : option Js.number)
| LinkMusic (value : string).

Definition setInvitationField (u : invitationField) (inv : Invitation.t)
    : Invitation.t :=
  match u with
  | Regime v =>
      Invitation.Build (Invitation.id inv) (Invitation.nom inv) (Invitation.type inv)
        (Some v) (Invitation.allergie inv) (Invitation.hebergement inv)
        (Invitation.herbergement_nombre inv) (Invitation.link_music inv)
        (Invitation.confirmed_at inv)
  | Allergie v =>
      Invitation.Build (Invitation.id inv) (Invitation.nom inv) (Invitation.type inv)
        (Invitation.regime inv) (Some v) (Invitation.hebergement inv)
        (Invitation.herbergement_nombre inv) (Invitation.link_music inv)
        (Invitation.confirmed_at inv)
  | Hebergement v =>
      Invitation.Build (Invitation.id inv) (Invitation.nom inv) (Invitation.type inv)
        (Invitation.regime inv) (Invitation.allergie inv) (Some v)
        (Invitation.herbergement_nombre inv) (Invitation.link_music inv)
        (Invitation.confirmed_at inv)
  | HerbergementNombre v =>
      Invitation.Build (Invitation.id inv) (Invitation.nom inv) (Invitation.type inv)
        (Invitation.regime inv) (Invitation.allergie inv) (Invitation.hebergement inv)
        v (Invitation.link_music inv) (Invitation.confirmed_at inv)
  | LinkMusic v =>
      Invitation.Build (Invitation.id inv) (Invitation.nom inv) (Invitation.type inv)
        (Invitation.regime inv) (Invitation.allergie inv) (Invitation.hebergement inv)
        (Invitation.herbergement_nombre inv) (Some v) (Invitation.confirmed_at inv)
  end.

(** [setInvitation((prev) => (prev ? { ...prev, [field]: value } : prev))] *)
Definition updateInvitation (u : invitationField) (prev : option Invitation.t)
    : option Invitation.t :=
  match prev with
  | Some inv => Some (setInvitationField u inv)
  | None => None
  end.

(** The brunch checkbox of a guest:
    [updateInvite(invite.id, "brunch", invite.brunch === true ? false : true)] *)
Definition toggleBrunch (invite : Invite.t) (prev : list Invite.t) : list Invite.t :=
  updateInvite (Invite.id invite) FBrunch
    (Some (if Js.is_true (Invite.brunch invite) then false else true)) prev.

(** The two radio buttons of "Je dors au château". *)
Definition chooseOui (prev : option Invitation.t) : option Invitation.t :=
  updateInvitation (Hebergement true) prev.

Definition chooseNon (prev : option Invitation.t) : option Invitation.t :=
  updateInvitation (HerbergementNombre None) (updateInvitation (Hebergement false) prev).

(** *** The record store as the page uses it *)

Module Store.

(** The columns [handleSubmit] writes on the invitation.  [JSON.stringify]
    turns [NaN] into [null]. *)
Module InvitationPatch.
Record t := Build {
  regime : option string;
  allergie : option string;
  hebergement : option bool;
  herbergement_nombre : option Js.number;
  link_music : option string;
  confirmed_at : string
}.
End InvitationPatch.

(** The columns [handleSubmit] writes on a guest. *)
Module InvitePatch.
Record t := Build {
  mairie : option bool;
  cocktail : option bool;
  chateau : option bool;
  brunch : option bool;
  autorisation_ia : option bool
}.
End InvitePatch.

Inductive request :=
| SelectInvitation (token_hash : string)
| SelectInvites (fk_invitation : string)
| UpdateInvitation (id : string) (patch : InvitationPatch.t)
| UpdateInvite (id : Z) (patch : InvitePatch.t).

(** A row of the [invitation] table: the selected columns and the digest. *)
Module InvitationRow.
Record t := Build { token_hash : string; columns : Invitation.t }.
End InvitationRow.

(** Modelled from the spec: the record store behind [lib/supabase], "an
    external collaborator exposing record read/update operations keyed by
    identifiers or token hashes".  [invitation] and [invites] are the two
    tables, [received] the requests sent to the store so far, [faults] what
    the store will report for the coming requests ([Some msg] for an error,
    [None] or nothing for none). *)
Record t := Build {
  invitation : list InvitationRow.t;
  invites : list Invite.t;
  received : list request;
  faults : list (option string)
}.

Definition nextFault (db : t) : option string :=
  match faults db with
  | f :: _ => f
  | [] => None
  end.

(** The store after it has received [req], rows being replaced by the
    given ones. *)
Definition served (req : request) (rows : list InvitationRow.t)
    (guests : list Invite.t) (db : t) : t :=
  Build rows guests (received db ++ [req]) (tail (faults db)).

Definition patchInvitation (p : InvitationPatch.t) (r : InvitationRow.t)
    : InvitationRow.t :=
  let c := InvitationRow.columns r in
  InvitationRow.Build (InvitationRow.token_hash r)
    (Invitation.Build (Invitation.id c) (Invitation.nom c) (Invitation.type c)
       (InvitationPatch.regime p) (InvitationPatch.allergie p)
       (InvitationPatch.hebergement p) (InvitationPatch.herbergement_nombre p)
       (InvitationPatch.link_music p) (Some (InvitationPatch.confirmed_at p))).

Definition patchInvite (p : InvitePatch.t) (g : Invite.t) : Invite.t :=
  Invite.Build (Invite.id g) (Invite.nom g) (InvitePatch.mairie p)
    (InvitePatch.cocktail p) (InvitePatch.chateau p) (InvitePatch.brunch p)
    (Invite.fk_invitation g) (InvitePatch.autorisation_ia p).

(** Modelled from the spec:
    [.from("invitation").select(...).eq("token_hash", h).single()].
    The reply carries a row only when exactly one row matches and the store
    reports no error. *)
Definition selectInvitation (h : string) (db : t) : option Invitation.t * t :=
  let db' := served (SelectInvitation h) (invitation db) (invites db) db in
  match nextFault db with
  | Some _ => (None, db')
  | None =>
      match List.filter (fun r => String.eqb (InvitationRow.token_hash r) h)
                        (invitation db) with
      | [r] => (Some (InvitationRow.columns r), db')
      | _ => (None, db')
      end
  end.

(** Modelled from the spec:
    [.from("invites").select(...).eq("fk_invitation", id)].  The reply is the
    error, or the matching rows in table order. *)
Definition selectInvites (id : string) (db : t) : (string + list Invite.t) * t :=
  let db' := served (SelectInvites id) (invitation db) (invites db) db in
  match nextFault db with
  | Some msg => (inl msg, db')
  | None =>
      (inr (List.filter (fun g => String.eqb (Invite.fk_invitation g) id) (invites db)),
       db')
  end.

(** Modelled from the spec: [.from("invitation").update(p).eq("id", id)].
    A request that fails changes no row. *)
Definition updateInvitation (id : string) (p : InvitationPatch.t) (db : t)
    : option string * t :=
  match nextFault db with
  | Some msg => (Some msg, served (UpdateInvitation id p) (invitation db) (invites db) db)
  | None =>
      (None,
       served (UpdateInvitation id p)
         (map (fun r => if String.eqb (Invitation.id (InvitationRow.columns r)) id
                        then patchInvitation p r else r)
              (invitation db))
         (invites db) db)
  end.

(** Modelled from the spec: [.from("invites").update(p).eq("id", id)]. *)
Definition updateInvite (id : Z) (p : InvitePatch.t) (db : t) : option string * t :=
  match nextFault db with
  | Some msg => (Some msg, served (UpdateInvite id p) (invitation db) (invites db) db)
  | None =>
      (None,
       served (UpdateInvite id p) (invitation db)
         (map (fun g => if Z.eqb (Invite.id g) id then patchInvite p g else g)
              (invites db))
         db)
  end.

End Store.

(** *** The component's state *)

Module Page.
Record t := Build {
  invitation : option Invitation.t;
  invites : list Invite.t;
  fetchError : option string;
  submitted : bool;
  loading : bool
}.
End Page.

(** The state of [useState] at mount. *)
Definition initial : Page.t := Page.Build None [] None false false.

Definition truthy (s : option string) : bool :=
  match s with
  | Some EmptyString | None => false
  | Some _ => true
  end.

Section Digest.

(** [sha256(token).toString()] *)
Variable sha256 : string -> string.

(** [fetchData], run on the state [st]. *)
Definition fetchData (token : string) (st : Page.t) (db : Store.t)
    : Page.t * Store.t :=
  let hash := sha256 token in
  let '(inv, db) := Store.selectInvitation hash db in
  match inv with
  | None =>
      (Page.Build (Page.invitation st) (Page.invites st)
         (Some "Invitation introuvable.") (Page.submitted st) (Page.loading st),
       db)
  | Some inv =>
      let submitted :=
        if truthy (Invitation.confirmed_at inv) then true else Page.submitted st in
      let '(rows, db) := Store.selectInvites (Invitation.id inv) db in
      match rows with
      | inl _ =>
          (Page.Build (Some inv) (Page.invites st)
             (Some "Erreur lors du chargement des invités.") submitted
             (Page.loading st),
           db)
      | inr inviteRows =>
          (Page.Build (Some inv) inviteRows (Page.fetchError st) submitted
             (Page.loading st),
           db)
      end
  end.

End Digest.

(** The value a headcount has once serialised. *)
Definition jsonNumber (n : option Js.number) : option Js.number :=
  match n with
  | Some Js.NaN => None
  | _ => n
  end.

Definition invitationPatch (inv : Invitation.t) (now : string)
    : Store.InvitationPatch.t :=
  Store.InvitationPatch.Build (Invitation.regime inv) (Invitation.allergie inv)
    (Invitation.hebergement inv) (jsonNumber (Invitation.herbergement_nombre inv))
    (Invitation.link_music inv) now.

Definition invitePatch (invite : Invite.t) : Store.InvitePatch.t :=
  Store.InvitePatch.Build (Invite.mairie invite) (Invite.cocktail invite)
    (Invite.chateau invite) (Invite.brunch invite) (Invite.autorisation_ia invite).

(** [for (const invite of invites) { update; if (updateError) throw updateError; }]:
    the error thrown, if any, and the store after the loop. *)
Fixpoint updateInvites (invites : list Invite.t) (db : Store.t)
    : option string * Store.t :=
  match invites with
  | [] => (None, db)
  | invite :: rest =>
      let '(updateError, db) :=
        Store.updateInvite (Invite.id invite) (invitePatch invite) db in
      match updateError with
      | Some e => (Some e, db)
      | None => updateInvites rest db
      end
  end.

Definition msgErreur : string := "Une erreur est survenue. Veuillez réessayer.".

(** What one run of [handleSubmit] leaves behind: the state, the store and
    the [alert] shown, if any. *)
Module Submission.
Record t := Build { page : Page.t; store : Store.t; alert : option string }.
End Submission.

Definition setLoading (b : bool) (st : Page.t) : Page.t :=
  Page.Build (Page.invitation st) (Page.invites st) (Page.fetchError st)
    (Page.submitted st) b.

Definition setSubmitted (b : bool) (st : Page.t) : Page.t :=
  Page.Build (Page.invitation st) (Page.invites st) (Page.fetchError st)
    b (Page.loading st).

(** [handleSubmit], where [now] is [new Date().toISOString()]. *)
Definition handleSubmit (now : string) (st : Page.t) (db : Store.t) : Submission.t :=
  match Page.invitation st with
  | None => Submission.Build st db None
  | Some invitation =>
      match validateForm (Some invitation) (Page.invites st) with
      | Alert msg => Submission.Build st db (Some msg)
      | Pass =>
          let '(invError, db) :=
            Store.updateInvitation (Invitation.id invitation)
              (invitationPatch invitation now) db in
          match invError with
          | Some _ => Submission.Build (setLoading false st) db (Some msgErreur)
          | None =>
              let '(updateError, db) := updateInvites (Page.invites st) db in
              match updateError with
              | Some _ => Submission.Build (setLoading false st) db (Some msgErreur)
              | None =>
                  Submission.Build (setLoading false (setSubmitted true st)) db None
              end
          end
      end
  end.

(** What the component renders. *)
Inductive view :=
| ErrorView (msg : string)
| LoadingView
| RecapView
| FormView.

Definition render (st : Page.t) : view :=
  if truthy (Page.fetchError st)
  then ErrorView (Js.or_string (Page.fetchError st) "")
  else match Page.invitation st with
       | None => LoadingView
       | Some _ => if Page.submitted st then RecapView else FormView
       end.

End Guest.

(** ** Reading the guest page *)

Module GuestSpec.
Import Rsvp Guest.

(** The columns of a guest the form cannot change. *)
Definition sameGuest (old new : Invite.t) : Prop :=
  Invite.id new = Invite.id old
  /\ Invite.nom new = Invite.nom old
  /\ Invite.fk_invitation new = Invite.fk_invitation old.

(** The columns of an invitation the form cannot change. *)
Definition sameCard (old new : Invitation.t) : Prop :=
  Invitation.id new = Invitation.id old
  /\ Invitation.nom new = Invitation.nom old
  /\ Invitation.type new = Invitation.type old.

(** The invitation of the form as the store holds it after a submission. *)
Definition readBack (inv : Invitation.t) (now : string) : Invitation.t :=
  Invitation.Build (Invitation.id inv) (Invitation.nom inv) (Invitation.type inv)
    (Invitation.regime inv) (Invitation.allergie inv) (Invitation.hebergement inv)
    (jsonNumber (Invitation.herbergement_nombre inv)) (Invitation.link_music inv)
    (Some now).

Definition hashIs (h : string) (r : Store.InvitationRow.t) : bool :=
  String.eqb (Store.InvitationRow.token_hash r) h.

Definition idIs (id : string) (r : Store.InvitationRow.t) : bool :=
  String.eqb (Invitation.id (Store.InvitationRow.columns r)) id.

Definition ofInvitation (id : string) (g : Invite.t) : bool :=
  String.eqb (Invite.fk_invitation g) id.

(** The store reports no error for any coming request. *)
Definition quiet (db : Store.t) : Prop :=
  Forall (fun f => f = None) (Store.faults db).

(** The requests of one complete submission, in order. *)
Definition submitRequests (inv : Invitation.t) (now : string)
    (invites : list Invite.t) : list Store.request :=
  Store.UpdateInvitation (Invitation.id inv) (invitationPatch inv now)
  :: map (fun g => Store.UpdateInvite (Invite.id g) (invitePatch g)) invites.

(** The [invites] table after the guest [g1] of the form is written. *)
Definition writeInvite (g1 : Invite.t) (table : list Invite.t) : list Invite.t :=
  map (fun g => if Z.eqb (Invite.id g) (Invite.id g1)
                then Store.patchInvite (invitePatch g1) g else g)
      table.

Definition writeAll (gs : list Invite.t) (table : list Invite.t) : list Invite.t :=
  fold_left (fun t g1 => writeInvite g1 t) gs table.

(** One row of the table after all the guests of the form are written. *)
Definition writeOne (gs : list Invite.t) (g : Invite.t) : Invite.t :=
  fold_left (fun g g1 => if Z.eqb (Invite.id g) (Invite.id g1)
                         then Store.patchInvite (invitePatch g1) g else g)
            gs g.

Definition writeCard (inv : Invitation.t) (now : string)
    (rows : list Store.InvitationRow.t) : list Store.InvitationRow.t :=
  map (fun r => if idIs (Invitation.id inv) r
                then Store.patchInvitation (invitationPatch inv now) r else r)
      rows.

(** A field is answered. *)
Definition answered (field : answerField) (g : Invite.t) : bool :=
  negb (Js.is_null (getField field g)).

End GuestSpec.

(** ** The dashboard: loading, labels and the session marker *)

Module Dashboard.
Import Admin.

(** A row of the [invitation] table as [fetchInvitations] selects it. *)
Module InvitationRow.
Record t := Build {
  id : string;
  nom : option string;
  type : option string;
  regime : option string;
  allergie : option string;
  hebergement : option bool;
  herbergement_nombre : option Z;
  link_music : option string;
  confirmed_at : option string;
  url : option string
}.
End InvitationRow.

(** [{ ...inv, invites }] *)
Definition withInvites (inv : InvitationRow.t) (invites : list Invite.t)
    : InvitationData.t :=
  InvitationData.Build (InvitationRow.id inv) (InvitationRow.nom inv)
    (InvitationRow.type inv) (InvitationRow.regime inv) (InvitationRow.allergie inv)
    (InvitationRow.hebergement inv) (InvitationRow.herbergement_nombre inv)
    (InvitationRow.link_music inv) (InvitationRow.confirmed_at inv)
    (InvitationRow.url inv) invites.

(** [data || []] *)
Definition orEmpty {A : Type} (data : option (list A)) : list A :=
  match data with Some l => l | None => [] end.

(** The value of [invitationsWithInvites] in [fetchInvitations]. *)
Definition invitationsWithInvites (invitationsData : option (list InvitationRow.t))
    (allInvitesData : option (list Invite.t)) : list InvitationData.t :=
  map (fun inv =>
         withInvites inv
           (List.filter
              (fun invite => String.eqb (Invite.fk_invitation invite)
                                        (InvitationRow.id inv))
              (orEmpty allInvitesData)))
      (orEmpty invitationsData).

(** Where the router is sent, if anywhere. *)
Inductive navigation :=
| Stay
| Push (path : string).

(** [checkAuth]: the path pushed, and whether [fetchInvitations] is run. *)
Definition checkAuth (localStorage : gmap string string) : navigation * bool :=
  match localStorage !! "adminToken" with
  | Some (String _ _) => (Stay, true)
  | Some EmptyString | None => (Push "/admin/login", false)
  end.

Definition handleLogout (localStorage : gmap string string)
    : gmap string string * navigation :=
  (delete "adminId" (delete "adminToken" localStorage), Push "/admin/login").

(** *** The regime table, read off the snapshot *)

(** Whether [inv] is listed under the regime [r]. *)
Definition listedUnder (r : string) (inv : InvitationData.t) : bool :=
  match InvitationData.regime inv with
  | Some x => nonEmpty x && trimTruthy x && String.eqb x r
  | None => false
  end.

Definition listedNames (r : string) (l : list InvitationData.t) : list string :=
  map (fun inv => Js.or_string (InvitationData.nom inv) "")
      (List.filter (listedUnder r) l).

Definition groupOf (r : string) (l : list InvitationData.t) : option RegimeGroup.t :=
  match listedNames r l with
  | [] => None
  | names => Some (RegimeGroup.Build (Z.of_nat (length names)) names)
  end.

(** A group with [names] pushed onto it, as the regime block does one
    invitation at a time. *)
Definition pushed (g : option RegimeGroup.t) (names : list string)
    : option RegimeGroup.t :=
  match names with
  | [] => g
  | _ =>
      Some (RegimeGroup.Build
              (match g with Some x => RegimeGroup.count x | None => 0 end
               + Z.of_nat (length names))
              (match g with Some x => RegimeGroup.invitations x | None => [] end
               ++ names))
  end.

(** *** The detail lists, read off the snapshot *)

Definition person (p : InvitationData.t * Invite.t) : Person.t :=
  Person.Build (Js.or_string (Invite.nom (snd p)) "Invité")
               (Js.or_string (InvitationData.nom (fst p)) "Invitation").

Definition lodging (inv : InvitationData.t) : Accommodation.t :=
  Accommodation.Build (Js.or_string (InvitationData.nom inv) "Invitation")
                      (Js.or_zero (InvitationData.herbergement_nombre inv)).

(** The fetched guests that belong to one of the fetched invitations. *)
Definition claimed (rows : list InvitationRow.t) (invite : Invite.t) : bool :=
  existsb (String.eqb (Invite.fk_invitation invite)) (map InvitationRow.id rows).

(** Sample rows, as the two queries of [fetchInvitations] return them. *)
Definition sampleRows : list InvitationRow.t :=
  [InvitationRow.Build "inv-1" (Some "Famille Martin") (Some "full") None None
     (Some true) (Some 2) None None None;
   InvitationRow.Build "inv-2" (Some "Famille Durand") (Some "partial-chateau")
     None None None None None None None].

Definition sampleInvites : list Invite.t :=
  [Invite.Build 1 (Some "Alice") (Some true) None (Some true) None None "inv-1";
   Invite.Build 2 (Some "Chloé") None None (Some false) None None "inv-2";
   Invite.Build 3 (Some "Bruno") None None None None None "inv-1";
   Invite.Build 4 (Some "Zoé") None None None None None "inv-9"].

Definition addCounter (c d : Counter.t) : Counter.t :=
  Counter.Build (Counter.accepted c + Counter.accepted d)
                (Counter.refused c + Counter.refused d)
                (Counter.total c + Counter.total d).

End Dashboard.

(** ** The administrator login page *)

Module Login.
Import Dashboard.

Module AdminRow.
Record t := Build { id : string; login : string; password : string }.
End AdminRow.

(** What one run of [handleSubmit] leaves behind. *)
Module Result.
Record t := Build {
  error : option string;
  loading : bool;
  localStorage : gmap string string;
  router : navigation
}.
End Result.

Definition msgIncorrect : string := "Login ou mot de passe incorrect.".

(** Modelled from the spec: [.from("admin").select("id, login, password")
    .eq("login", login).single()] on the table [admins], where [fault] is the
    error the store reports, if any.  The reply carries a row only when
    exactly one row matches. *)
Definition selectAdmin (login : string) (admins : list AdminRow.t)
    (fault : option string) : option AdminRow.t :=
  match fault with
  | Some _ => None
  | None =>
      match List.filter (fun a => String.eqb (AdminRow.login a) login) admins with
      | [a] => Some a
      | _ => None
      end
  end.

Section Digest.

(** [sha256(text).toString()] of crypto-js. *)
Variable sha256 : string -> string.

(** [handleSubmit] of the login form; [now] is [Date.now()]. *)
Definition handleSubmit (login password : string) (now : Z)
    (admins : list AdminRow.t) (fault : option string)
    (localStorage : gmap string string) : Result.t :=
  match selectAdmin login admins fault with
  | None => Result.Build (Some msgIncorrect) false localStorage Stay
  | Some admin =>
      let hashedPassword := sha256 password in
      if negb (String.eqb hashedPassword (AdminRow.password admin))
      then Result.Build (Some msgIncorrect) false localStorage Stay
      else
        let authToken := sha256 (AdminRow.id admin +:+ "-" +:+ pretty now) in
        Result.Build None false
          (insert "adminId" (AdminRow.id admin)
             (insert "adminToken" authToken localStorage))
          (Push "/admin/dashboard")
  end.

End Digest.

End Login.

(** ** Reading the endpoint's writes *)

Module ApiMoreSpec.
Import Api ApiSpec.

(** The member named [k] that a request sends, if any. *)
Definition sent (k : string) (req : option jsonValue) : option jsonValue :=
  match req with
  | Some body => get k body
  | None => None
  end.

(** What a call of the endpoint keeps of a row: the columns it never
    writes, and every answer whose member the request does not send. *)
Definition untouched (req : option jsonValue) (old new : Invite.t) : Prop :=
  Invite.id new = Invite.id old
  /\ Invite.nom new = Invite.nom old
  /\ Invite.type new = Invite.type old
  /\ Invite.token_hash new = Invite.token_hash old
  /\ (sent "mairie" req = None -> Invite.mairie new = Invite.mairie old)
  /\ (sent "cocktail" req = None -> Invite.cocktail new = Invite.cocktail old)
  /\ (sent "chateau" req = None -> Invite.chateau new = Invite.chateau old)
  /\ (sent "regime" req = None -> Invite.regime new = Invite.regime old)
  /\ (sent "allergie" req = None -> Invite.allergie new = Invite.allergie old)
  /\ (sent "hebergement" req = None -> Invite.hebergement new = Invite.hebergement old)
  /\ (sent "brunch" req = None -> Invite.brunch new = Invite.brunch old).

(** The answer columns the handler writes. *)
Inductive column :=
| CMairie
| CCocktail
| CChateau
| CRegime
| CAllergie
| CHebergement
| CBrunch.

Definition columnName (c : column) : string :=
  match c with
  | CMairie => "mairie"
  | CCocktail => "cocktail"
  | CChateau => "chateau"
  | CRegime => "regime"
  | CAllergie => "allergie"
  | CHebergement => "hebergement"
  | CBrunch => "brunch"
  end.

(** The column holds no answer. *)
Definition unanswered (c : column) (r : Invite.t) : Prop :=
  match c with
  | CMairie => Invite.mairie r = None
  | CCocktail => Invite.cocktail r = None
  | CChateau => Invite.chateau r = None
  | CRegime => Invite.regime r = None
  | CAllergie => Invite.allergie r = None
  | CHebergement => Invite.hebergement r = None
  | CBrunch => Invite.brunch r = None
  end.

(** The store takes a JSON [null] sent for the column as SQL [NULL]. *)
Definition takesNull (codec : Codec.t) (c : column) : Prop :=
  match c with
  | CRegime | CAllergie => Codec.text codec JNull = Some None
  | _ => Codec.boolean codec JNull = Some None
  end.

(** The store after a call; it is as before when the handler throws. *)
Definition after (codec : Codec.t) (sha256hex : string -> string)
    (req : option jsonValue) (now : string) (db : Supabase.t) : Supabase.t :=
  match POST codec sha256hex req now db with
  | Normal (_, db') => db'
  | Throw _ => db
  end.

Definition quiet (db : Supabase.t) : Prop :=
  Forall (fun f => f = None) (Supabase.faults db).

(** What a request does to one row of a store that is not at fault. *)
Definition effect (codec : Codec.t) (sha256hex : string -> string)
    (req : option jsonValue) (now : string) (r : Invite.t) : Invite.t :=
  match req, tokenOf req with
  | Some body, Normal token =>
      match readPatch codec (updateObject body now) with
      | inr columns => if matches (sha256hex token) r then applyPatch columns r else r
      | inl _ => r
      end
  | _, _ => r
  end.

Definition full_body (token : string) : jsonValue :=
  JObject [("token", JString token); ("mairie", JBool true);
           ("cocktail", JBool false); ("chateau", JBool true);
           ("regime", JString "Halal"); ("hebergement", JBool false);
           ("brunch", JBool true)].

(** A body that withdraws the town-hall answer. *)
Definition withdrawal (token : string) : jsonValue :=
  JObject [("token", JString token); ("mairie", JNull)].

End ApiMoreSpec.

(** ** More sample data *)

Module Samples.
Import Rsvp.

Definition bob : Invite.t :=
  Invite.Build 2 (Some "Bob") (Some true) (Some true) (Some true) (Some false)
    "inv-1" (Some false).

Definition aliceRow : Invite.t :=
  Invite.Build 1 (Some "Alice") None None None None "inv-1" None.

Definition bobRow : Invite.t :=
  Invite.Build 2 (Some "Bob") None None None None "inv-1" None.

Definition carol : Invite.t :=
  Invite.Build 3 (Some "Carol") None None None None "inv-2" None.

Definition card : Invitation.t :=
  Invitation.Build "inv-1" (Some "Famille Martin") (Some "partial-mairie") None None
    None None None None.

Definition filled : Invitation.t :=
  Invitation.Build "inv-1" (Some "Famille Martin") (Some "partial-mairie")
    (Some "Halal") None (Some false) None (Some "Daft Punk") None.

Definition otherCard : Invitation.t :=
  Invitation.Build "inv-2" (Some "Famille Durand") (Some "full") None None
    None None None None.

Definition tables : list Guest.Store.InvitationRow.t * list Invite.t :=
  ([Guest.Store.InvitationRow.Build "h:abc" card;
    Guest.Store.InvitationRow.Build "h:xyz" otherCard],
   [aliceRow; carol; bobRow]).

Definition healthy : Guest.Store.t :=
  Guest.Store.Build (fst tables) (snd tables) [] [].

(** The second request fails. *)
Definition failing : Guest.Store.t :=
  Guest.Store.Build (fst tables) (snd tables) [] [None; Some "timeout"].

Definition answered : list Invite.t := [RsvpSpec.aliceAtChateau; bob].

Definition editing : Guest.Page.t :=
  Guest.Page.Build (Some filled) answered None false false.

Definition instant : string := "2026-08-08T10:00:00.000Z".

Definition admins : list Login.AdminRow.t :=
  [Login.AdminRow.Build "7" "lina" "h:secret"].

End Samples.

(** * Properties *)

(** ** The validator *)

Module RsvpFacts.
Import Rsvp RsvpSpec.

Lemma returns_andThen (a b : outcome) :
  returns (a ;> b) = returns a && returns b.
Proof. destruct a; reflexivity. Qed.

Lemma returns_failIf (c : bool) (msg : string) :
  returns (failIf c msg) = negb c.
Proof. destruct c; reflexivity. Qed.

Lemma returns_forOf (body : Invite.t -> outcome) (invites : list Invite.t) :
  returns (forOf body invites) = forallb (fun invite => returns (body invite)) invites.
Proof.
  induction invites as [|invite rest IH]; simpl.
  - reflexivity.
  - rewrite returns_andThen, IH. reflexivity.
Qed.

Lemma returns_Pass (o : outcome) : returns o = true <-> o = Pass.
Proof. destruct o; simpl; split; congruence. Qed.

(** Three loops over the same guests fail together exactly when some
    guest fails one of the three tests. *)
Lemma three_loops {A : Type} (f g h : A -> bool) (l : list A) :
  negb (forallb f l && forallb g l && forallb h l)
  = existsb (fun x => negb (f x) || negb (g x) || negb (h x)) l.
Proof.
  induction l as [|x l IH]; simpl.
  - reflexivity.
  - rewrite <- IH.
    destruct (f x), (g x), (h x), (forallb f l), (forallb g l), (forallb h l);
      reflexivity.
Qed.

Lemma existsb_ext_eq {A : Type} (f g : A -> bool) (l : list A) :
  (forall x, f x = g x) -> existsb f l = existsb g l.
Proof.
  intros E. induction l as [|x l IH]; simpl; [reflexivity|].
  rewrite E, IH. reflexivity.
Qed.

Lemma forallb_guard {A : Type} (b : bool) (f : A -> bool) (l : list A) :
  (if b then forallb f l else true) = forallb (fun x => negb b || f x) l.
Proof.
  destruct b; simpl; [reflexivity|].
  induction l as [|x l IH]; simpl; [reflexivity | exact IH].
Qed.

Lemma returns_validateForm (inv : Invitation.t) (invites : list Invite.t) :
  returns (validateForm (Some inv) invites)
  = guestLoops inv invites && negb (accommodationMissing inv).
Proof.
  unfold validateForm, guestLoops.
  rewrite !returns_andThen, !returns_failIf, !returns_forOf.
  replace (returns (if isMailleInvited (Some inv)
                    then forOf checkSamedi01 invites else Pass))
    with (if townHallRequired (Invitation.type inv)
          then forallb (fun invite => returns (checkSamedi01 invite)) invites
          else true).
  2:{ unfold isMailleInvited, townHallRequired.
      destruct (_ || _); [rewrite returns_forOf|]; reflexivity. }
  rewrite forallb_guard. simpl.
  repeat match goal with
         | |- context [forallb ?f ?l] => destruct (forallb f l)
         end; simpl; try reflexivity.
  unfold accommodationMissing, Js.falsy_number, Js.le_zero.
  destruct (Invitation.hebergement inv) as [[|]|];
    destruct (Invitation.herbergement_nombre inv) as [[n|]|]; simpl;
    try reflexivity.
  destruct (Z.eqb_spec n 0) as [->|]; simpl; [reflexivity|].
  rewrite andb_true_r. reflexivity.
Qed.

Lemma guestLoops_fieldMissing (inv : Invitation.t) (invites : list Invite.t) :
  negb (guestLoops inv invites)
  = existsb (fieldMissing (Invitation.type inv)) invites.
Proof.
  unfold guestLoops. rewrite three_loops.
  apply existsb_ext_eq. intros invite.
  unfold fieldMissing, checkSamedi01, checkSamedi08, checkIA.
  rewrite returns_andThen, !returns_failIf.
  destruct (townHallRequired _), (Invite.mairie invite), (Invite.cocktail invite),
    (Invite.chateau invite), (Invite.autorisation_ia invite); reflexivity.
Qed.

Lemma validateForm_fails (inv : Invitation.t) (invites : list Invite.t) :
  negb (returns (validateForm (Some inv) invites)) = rejects inv invites.
Proof.
  rewrite returns_validateForm, negb_andb, negb_involutive.
  rewrite guestLoops_fieldMissing. reflexivity.
Qed.

(** Once the guest loops are through, only the accommodation tests remain. *)
Lemma validateForm_after_guests (inv : Invitation.t) (invites : list Invite.t) :
  guestsAnswered (Invitation.type inv) invites ->
  validateForm (Some inv) invites
  = (failIf (hebergementNull (Some inv)) msgHebergement ;>
     failIf (nombreManquant (Some inv)) msgNombre ;> Pass).
Proof.
  unfold guestsAnswered. rewrite <- guestLoops_fieldMissing.
  intros G. apply negb_false_iff in G. unfold guestLoops in G.
  apply andb_prop in G as [G G3]. apply andb_prop in G as [G1 G2].
  rewrite <- returns_forOf in G2, G3.
  apply returns_Pass in G2, G3.
  assert ((if isMailleInvited (Some inv)
           then forOf checkSamedi01 invites else Pass) = Pass) as G0.
  { rewrite <- forallb_guard in G1.
    unfold isMailleInvited. unfold townHallRequired in G1.
    destruct (_ || _); [|reflexivity].
    rewrite <- returns_forOf in G1. apply returns_Pass in G1. exact G1. }
  unfold validateForm. rewrite G0, G2, G3. reflexivity.
Qed.

(** C1, as the specification states it, fails: the château answer of a
    [partial-mairie] guest is not in the table, yet the validator asks
    for it. *)
Lemma validate_table_counterexample :
  ~ (returns (validateForm (Some townHallOnly) [alice]) = false
     <-> mustFail townHallOnly [alice] = true).
Proof.
  vm_compute. intros [H _]. specialize (H eq_refl). discriminate H.
Qed.

(** C1, amended: for every invitation and guest list, [validateForm] fails
    if and only if some guest leaves unanswered the town-hall or cocktail
    answer (types [full] and [partial-mairie] only), the château answer
    (every type) or the consent answer (every type), or the accommodation
    flag is unanswered, or accommodation is accepted while the headcount
    is absent or not positive; otherwise it succeeds. *)
Theorem validateForm_fails_iff (inv : Invitation.t) (invites : list Invite.t) :
  (returns (validateForm (Some inv) invites) = false
   <-> rejects inv invites = true)
  /\ (validateForm (Some inv) invites = Pass
      <-> rejects inv invites = false).
Proof.
  rewrite <- returns_Pass, <- validateForm_fails.
  destruct (returns _); simpl; split; split; congruence.
Qed.

(** C2, as the specification states it, fails on the scenario itself:
    the validator stops at the untouched château answer. *)
Lemma townHall_scenario_counterexample :
  townHallScenario townHallOnly alice
  /\ validateForm (Some townHallOnly) [alice]
     = Alert "Veuillez confirmer votre présence pour samedi 08 pour Alice".
Proof.
  split; [|reflexivity].
  unfold townHallScenario, othersAnswered. simpl.
  repeat split; congruence.
Qed.

(** C2, amended: for a [partial-mairie] invitation with one guest who
    answered town hall yes and cocktail no, the other preconditions being
    met, [validateForm] succeeds exactly when the guest's château answer
    is recorded, whatever the brunch field holds; with the château answer
    missing it fails with the alert that asks for that guest's presence on
    samedi 08.  The château answer is required for this type too, the
    brunch answer is not. *)
Theorem townHall_guest_needs_chateau (inv : Invitation.t) (invite : Invite.t) :
  Invitation.type inv = Some "partial-mairie" ->
  Invite.mairie invite = Some true ->
  Invite.cocktail invite = Some false ->
  othersAnswered inv invite ->
  (validateForm (Some inv) [invite] = Pass <-> Invite.chateau invite <> None)
  /\ (Invite.chateau invite = None ->
      validateForm (Some inv) [invite]
      = Alert ("Veuillez confirmer votre présence pour samedi 08 pour "
               +:+ who invite)).
Proof.
  intros T M C [IA Acc]. split.
  2:{ intros Ch. unfold validateForm, isMailleInvited. rewrite T.
      cbn [Js.str_is String.eqb orb forOf].
      unfold checkSamedi01, checkSamedi08. rewrite M, C, Ch. reflexivity. }
  rewrite <- returns_Pass.
  assert (returns (validateForm (Some inv) [invite]) = negb (rejects inv [invite]))
    as -> by (rewrite <- validateForm_fails, negb_involutive; reflexivity).
  unfold rejects. rewrite Acc. cbn [existsb]. unfold fieldMissing.
  rewrite T, M, C. simpl.
  destruct (Invite.chateau invite), (Invite.autorisation_ia invite); simpl;
    split; congruence.
Qed.

Lemma townHall_guest_needs_chateau_witness :
  (validateForm (Some townHallOnly) [alice] = Pass
   <-> Invite.chateau alice <> None)
  /\ (Invite.chateau alice = None ->
      validateForm (Some townHallOnly) [alice]
      = Alert ("Veuillez confirmer votre présence pour samedi 08 pour "
               +:+ who alice)).
Proof.
  apply (townHall_guest_needs_chateau townHallOnly alice).
  - reflexivity.
  - reflexivity.
  - reflexivity.
  - split; [simpl; discriminate | reflexivity].
Defined.

(** C6, as the specification states it, fails when the fields required are
    those of its table: on a [partial-mairie] invitation whose guest has not
    answered the château question, accommodation accepted and no headcount,
    the validator asks for the château answer, before and after the
    headcount is set to 2. *)
Lemma accommodation_count_counterexample : ~ countScenario townHallSleepover [alice].
Proof.
  intros H. destruct H as [_ B]; [reflexivity | reflexivity |].
  vm_compute in B. discriminate B.
Qed.

(** C6, amended: when every guest answer the validator looks at is
    recorded (town hall and cocktail for the types [full] and
    [partial-mairie], château and consent for every type) and
    accommodation is accepted, a headcount that is absent or not positive
    makes [validateForm] fail with the headcount message, and the same
    state with the headcount set to 2 passes. *)
Theorem accommodation_count_required (inv : Invitation.t) (invites : list Invite.t) :
  guestsAnswered (Invitation.type inv) invites ->
  Invitation.hebergement inv = Some true ->
  (match Invitation.herbergement_nombre inv with
   | Some (Js.Int n) => n <= 0
   | Some Js.NaN => True
   | None => True
   end -> validateForm (Some inv) invites = Alert msgNombre)
  /\ validateForm (Some (withNombre (Some (Js.Int 2)) inv)) invites = Pass.
Proof.
  intros G H. split.
  - intros N. rewrite (validateForm_after_guests inv invites G).
    unfold hebergementNull, nombreManquant. rewrite H. simpl.
    destruct (Invitation.herbergement_nombre inv) as [[n|]|]; simpl;
      [|reflexivity|reflexivity].
    destruct (Z.eqb_spec n 0); simpl; [reflexivity|].
    destruct (Z.leb_spec n 0); [reflexivity | lia].
  - rewrite (validateForm_after_guests (withNombre (Some (Js.Int 2)) inv) invites G).
    unfold hebergementNull, nombreManquant. simpl. rewrite H. reflexivity.
Qed.

Lemma accommodation_count_required_witness :
  validateForm (Some sleepover) [aliceAtChateau] = Alert msgNombre
  /\ validateForm (Some (withNombre (Some (Js.Int 2)) sleepover)) [aliceAtChateau]
     = Pass.
Proof.
  destruct (accommodation_count_required sleepover [aliceAtChateau]) as [A B].
  - reflexivity.
  - reflexivity.
  - split; [apply A; exact I | exact B].
Defined.

End RsvpFacts.

(** ** The aggregator *)

Module AdminFacts.
Import Admin AdminSpec.

(** *** The inner loop *)

Lemma tallyAll_fields (b : bool) (f : Invite.t -> option bool)
    (l : list Invite.t) (c : Counter.t) :
  Counter.accepted (tallyAll b f l c)
    = Counter.accepted c + count (fun g => b && Js.is_true (f g)) l
  /\ Counter.refused (tallyAll b f l c)
    = Counter.refused c + count (fun g => b && Js.is_false (f g)) l
  /\ Counter.total (tallyAll b f l c)
    = Counter.total c + count (fun g => b && anyAnswer (f g)) l.
Proof.
  unfold tallyAll, count. revert c.
  induction l as [|g l IH]; intros c; cbn [fold_left List.filter].
  - cbn [length]. lia.
  - destruct (IH (if b then tally (f g) c else c)) as (Ha & Hr & Ht).
    rewrite Ha, Hr, Ht. clear IH Ha Hr Ht.
    destruct b; cbn [andb]; [|lia].
    destruct (f g) as [[|]|]; cbn -[Z.add Z.of_nat]; lia.
Qed.

Lemma fold_countInvite (inv : InvitationData.t) (l : list Invite.t) (s : Stats.t) :
  fold_left (countInvite inv) l s
  = Stats.Build
      (tallyAll (isFull inv) Invite.chateau l (Stats.complete s))
      (tallyAll (isMairie inv) Invite.mairie l (Stats.mairie s))
      (tallyAll (isChateau inv) Invite.chateau l (Stats.chateau s))
      (Stats.accommodation s) (Stats.regimes s).
Proof.
  unfold tallyAll. revert s.
  induction l as [|g l IH]; intros s; cbn [fold_left].
  - destruct s; reflexivity.
  - rewrite IH. unfold countInvite.
    destruct (isFull inv), (isMairie inv), (isChateau inv); reflexivity.
Qed.

(** *** One invitation *)

Lemma countAccommodation_fields (inv : InvitationData.t) (s : Stats.t) :
  counters (countAccommodation inv s)
    = (Stats.complete s, Stats.mairie s, Stats.chateau s,
       if Js.is_true (InvitationData.hebergement inv)
       then Stats.accommodation s
            + Js.or_zero (InvitationData.herbergement_nombre inv)
       else Stats.accommodation s)
  /\ Stats.regimes (countAccommodation inv s) = Stats.regimes s.
Proof.
  unfold countAccommodation.
  destruct (Js.is_true _); split; reflexivity.
Qed.

Lemma ownKeysOnly_insert (r : string) (g : RegimeGroup.t) (s : Stats.t) :
  inherited r = false -> ownKeysOnly s -> ownKeysOnly (onRegimes (insert r g) s).
Proof.
  intros Hr Hs k Hk. cbn.
  rewrite lookup_insert_ne; [apply Hs, Hk|].
  intros ->. congruence.
Qed.

(** The regime block throws exactly on a poisoned invitation; otherwise
    it leaves the counters alone. *)
Lemma collectRegime_cases (inv : InvitationData.t) (s : Stats.t) :
  ownKeysOnly s ->
  (poisoned inv = true /\ collectRegime inv s = Throw TypeError)
  \/ (poisoned inv = false
      /\ exists s', collectRegime inv s = Normal s'
                    /\ ownKeysOnly s' /\ counters s' = counters s).
Proof.
  intros Hs. unfold collectRegime, poisoned.
  destruct (InvitationData.regime inv) as [r|]; [|right; eauto].
  destruct (nonEmpty r && trimTruthy r); cbn [andb]; [|right; eauto].
  destruct (inherited r) eqn:Hr.
  - left. rewrite (Hs r Hr). split; reflexivity.
  - right. split; [reflexivity|].
    destruct (Stats.regimes s !! r);
      (eexists; split; [reflexivity|]; split;
       [apply ownKeysOnly_insert; assumption | reflexivity]).
Qed.

Lemma countInvitation_cases (s : Stats.t) (inv : InvitationData.t) :
  ownKeysOnly s ->
  (poisoned inv = true /\ countInvitation s inv = Throw TypeError)
  \/ (poisoned inv = false
      /\ exists s', countInvitation s inv = Normal s'
                    /\ ownKeysOnly s'
                    /\ counters s' = countersStep (counters s) inv).
Proof.
  intros Hs. unfold countInvitation.
  set (s1 := fold_left (countInvite inv) (InvitationData.invites inv) s).
  destruct (countAccommodation_fields inv s1) as [Hc Hr].
  assert (ownKeysOnly (countAccommodation inv s1)) as H1.
  { intros k Hk. rewrite Hr. subst s1. rewrite fold_countInvite. apply Hs, Hk. }
  destruct (collectRegime_cases inv _ H1) as [[P T]|[P (s' & N & O & C)]].
  - left. auto.
  - right. split; [assumption|]. exists s'. split; [assumption|].
    split; [assumption|].
    rewrite C, Hc. subst s1. rewrite fold_countInvite. reflexivity.
Qed.

(** *** The outer loop *)

Lemma forEach_cases (l : list InvitationData.t) (s : Stats.t) :
  ownKeysOnly s ->
  (existsb poisoned l = true /\ forEach countInvitation l s = Throw TypeError)
  \/ (existsb poisoned l = false
      /\ exists s', forEach countInvitation l s = Normal s'
                    /\ counters s' = fold_left countersStep l (counters s)).
Proof.
  revert s. induction l as [|inv l IH]; intros s Hs; cbn [existsb forEach fold_left].
  - right. eauto.
  - destruct (countInvitation_cases s inv Hs) as [[P T]|[P (s1 & N & O & C)]].
    + left. rewrite P, T. auto.
    + rewrite P, N, <- C. cbn [orb]. apply IH, O.
Qed.

Lemma ownKeysOnly_empty : ownKeysOnly emptyStats.
Proof. intros k _. apply lookup_empty. Qed.

Lemma calculateStats_cases (l : list InvitationData.t) :
  (existsb poisoned l = true /\ calculateStats l = Throw TypeError)
  \/ (existsb poisoned l = false
      /\ exists s, calculateStats l = Normal s
                   /\ counters s = fold_left countersStep l (counters emptyStats)).
Proof. apply forEach_cases, ownKeysOnly_empty. Qed.

(** *** Closed forms *)

Lemma fold_countersStep (l : list InvitationData.t) (c m ch : Counter.t) (a : Z) :
  fold_left countersStep l (c, m, ch, a)
  = (tallyInvitations isFull Invite.chateau l c,
     tallyInvitations isMairie Invite.mairie l m,
     tallyInvitations isChateau Invite.chateau l ch,
     a + sumZ (map headcountShare l)).
Proof.
  unfold tallyInvitations. revert c m ch a.
  induction l as [|inv l IH]; intros c m ch a; cbn [fold_left map sumZ fold_right].
  - f_equal. lia.
  - cbn [countersStep]. rewrite IH. f_equal.
    unfold headcountShare, sumZ. destruct (Js.is_true _); lia.
Qed.

Lemma tallyInvitations_fields (ap : InvitationData.t -> bool)
    (f : Invite.t -> option bool) (l : list InvitationData.t) (c : Counter.t) :
  let part ok inv :=
    count (fun g => ap inv && ok (f g)) (InvitationData.invites inv) in
  Counter.accepted (tallyInvitations ap f l c)
    = Counter.accepted c + sumZ (map (part Js.is_true) l)
  /\ Counter.refused (tallyInvitations ap f l c)
    = Counter.refused c + sumZ (map (part Js.is_false) l)
  /\ Counter.total (tallyInvitations ap f l c)
    = Counter.total c + sumZ (map (part anyAnswer) l).
Proof.
  intros part. unfold tallyInvitations. revert c.
  induction l as [|inv l IH]; intros c; cbn [fold_left map sumZ fold_right].
  - lia.
  - destruct (IH (tallyAll (ap inv) f (InvitationData.invites inv) c))
      as (Ha & Hr & Ht).
    destruct (tallyAll_fields (ap inv) f (InvitationData.invites inv) c)
      as (Ja & Jr & Jt).
    unfold sumZ in *. rewrite Ha, Hr, Ht, Ja, Jr, Jt. subst part. cbn beta. lia.
Qed.

Lemma counters_closed (l : list InvitationData.t) (st : Stats.t) :
  calculateStats l = Normal st ->
  (forall cat, counter cat st
               = tallyInvitations (applicable cat) (answer cat) l zeroCounter)
  /\ Stats.accommodation st = sumZ (map headcountShare l).
Proof.
  intros H.
  destruct (calculateStats_cases l) as [[_ T]|[_ (s & N & C)]]; [congruence|].
  assert (s = st) as -> by congruence.
  unfold counters in C. cbn [emptyStats Stats.complete Stats.mairie Stats.chateau
                             Stats.accommodation] in C.
  rewrite fold_countersStep in C. injection C as C1 C2 C3 C4.
  split; [intros []; assumption | lia].
Qed.

(** Summing over invitations is counting over the flattened guest list. *)
Lemma sumZ_share (cat : category) (ok : option bool -> bool)
    (l : list InvitationData.t) :
  sumZ (map (share cat ok) l) = howMany cat ok l.
Proof.
  unfold howMany, guests.
  induction l as [|inv l IH]; cbn [map sumZ fold_right flat_map]; [reflexivity|].
  rewrite List.filter_app, List.length_app, Nat2Z.inj_add.
  unfold sumZ in IH. rewrite IH. f_equal.
  unfold share, count. f_equal.
  induction (InvitationData.invites inv) as [|g gs IHg]; cbn; [reflexivity|].
  destruct (applicable cat inv && ok (answer cat g)); cbn; rewrite IHg; reflexivity.
Qed.

Lemma counter_fields (cat : category) (l : list InvitationData.t) (st : Stats.t) :
  calculateStats l = Normal st ->
  Counter.accepted (counter cat st) = howMany cat Js.is_true l
  /\ Counter.refused (counter cat st) = howMany cat Js.is_false l
  /\ Counter.total (counter cat st) = howMany cat anyAnswer l.
Proof.
  intros H. destruct (counters_closed l st H) as [C _].
  rewrite (C cat), <- !sumZ_share.
  destruct (tallyInvitations_fields (applicable cat) (answer cat) l zeroCounter)
    as (Ha & Hr & Ht).
  cbn zeta in Ha, Hr, Ht. cbn [zeroCounter Counter.accepted Counter.refused
                               Counter.total] in Ha, Hr, Ht.
  rewrite Ha, Hr, Ht. unfold share. repeat split; lia.
Qed.

(** Each guest is in exactly one of the three answer classes. *)
Lemma howMany_split (cat : category) (l : list InvitationData.t) :
  howMany cat anyAnswer l
  = howMany cat Js.is_true l + howMany cat Js.is_false l + howMany cat Js.is_null l.
Proof.
  unfold howMany.
  induction (guests l) as [|[inv g] ps IH]; cbn [List.filter fst snd]; [reflexivity|].
  destruct (applicable cat inv); cbn [andb]; [|exact IH].
  destruct (answer cat g) as [[|]|]; cbn -[Z.of_nat Z.add] in *; lia.
Qed.

Lemma sumZ_map_Permutation {A : Type} (f : A -> Z) (l l' : list A) :
  Permutation l l' -> sumZ (map f l) = sumZ (map f l').
Proof.
  unfold sumZ.
  induction 1; cbn [map fold_right]; lia.
Qed.

Lemma existsb_Permutation {A : Type} (f : A -> bool) (l l' : list A) :
  Permutation l l' -> existsb f l = existsb f l'.
Proof.
  induction 1; cbn [existsb].
  - reflexivity.
  - congruence.
  - destruct (f x), (f y); reflexivity.
  - congruence.
Qed.

Lemma counter_ext (c d : Counter.t) :
  Counter.accepted c = Counter.accepted d ->
  Counter.refused c = Counter.refused d ->
  Counter.total c = Counter.total d ->
  c = d.
Proof. destruct c, d; cbn; congruence. Qed.

Lemma tallyInvitations_Permutation (ap : InvitationData.t -> bool)
    (f : Invite.t -> option bool) (l l' : list InvitationData.t) (c : Counter.t) :
  Permutation l l' -> tallyInvitations ap f l c = tallyInvitations ap f l' c.
Proof.
  intros P.
  destruct (tallyInvitations_fields ap f l c) as (Ha & Hr & Ht).
  destruct (tallyInvitations_fields ap f l' c) as (Ja & Jr & Jt).
  cbn zeta in *.
  apply counter_ext; rewrite ?Ha, ?Hr, ?Ht, ?Ja, ?Jr, ?Jt; f_equal;
    apply sumZ_map_Permutation, P.
Qed.

Lemma filter_length_le {A : Type} (p q : A -> bool) (l : list A) :
  (forall x, p x = true -> q x = true) ->
  (length (List.filter p l) <= length (List.filter q l))%nat.
Proof.
  intros I. induction l as [|x l IH]; cbn; [lia|].
  destruct (p x) eqn:P; [rewrite (I x P); cbn; lia|].
  destruct (q x); cbn; lia.
Qed.

Lemma sumZ_headcounts (l : list InvitationData.t) :
  sumZ (map headcountShare l) = sumZ (headcounts l).
Proof.
  unfold headcounts, sumZ.
  induction l as [|inv l IH]; cbn [map List.filter fold_right]; [reflexivity|].
  unfold headcountShare at 1.
  destruct (Js.is_true _); cbn [map fold_right]; lia.
Qed.

(** *** The detail queries *)

Lemma include_test (type : statsType) (status : statsStatus)
    (inv : InvitationData.t) (g : Invite.t) :
  include type status inv g
  = applicable (categoryOf type) inv
    && statusTest status (answer (categoryOf type) g).
Proof.
  destruct type, status;
    unfold include, categoryOf, applicable, answer, statusTest, isMairie, isChateau,
      isAccepted, isRefused;
    destruct (_ || _); cbn [andb];
    try destruct (Invite.mairie g) as [[|]|];
    try destruct (Invite.chateau g) as [[|]|]; reflexivity.
Qed.

Lemma length_pushPerson (type : statsType) (status : statsStatus)
    (inv : InvitationData.t) (gs : list Invite.t) (people : list Person.t) :
  Z.of_nat (length (fold_left (pushPerson type status inv) gs people))
  = Z.of_nat (length people)
    + count (fun g => applicable (categoryOf type) inv
                      && statusTest status (answer (categoryOf type) g)) gs.
Proof.
  unfold count. revert people.
  induction gs as [|g gs IH]; intros people; cbn [fold_left List.filter].
  - cbn [length]. lia.
  - rewrite IH. unfold pushPerson. rewrite include_test.
    destruct (_ && _); [rewrite List.length_app|]; cbn [length]; lia.
Qed.

Lemma length_getStatsDetails (type : statsType) (status : statsStatus)
    (l : list InvitationData.t) :
  Z.of_nat (length (getStatsDetails type status l))
  = howMany (categoryOf type) (statusTest status) l.
Proof.
  rewrite <- sumZ_share. unfold getStatsDetails.
  assert (forall people,
    Z.of_nat (length (fold_left
      (fun people inv =>
         fold_left (pushPerson type status inv) (InvitationData.invites inv) people)
      l people))
    = Z.of_nat (length people)
      + sumZ (map (share (categoryOf type) (statusTest status)) l)) as G.
  { unfold sumZ.
    induction l as [|inv l IH]; intros people; cbn [fold_left map fold_right].
    - lia.
    - rewrite IH, length_pushPerson. unfold share. lia. }
  rewrite G. cbn [length]. lia.
Qed.

Lemma sum_getAccommodationDetails (l : list InvitationData.t) :
  sumZ (map Accommodation.nombre (getAccommodationDetails l)) = sumZ (headcounts l).
Proof.
  unfold getAccommodationDetails.
  assert (forall acc,
    sumZ (map Accommodation.nombre (fold_left pushAccommodation l acc))
    = sumZ (map Accommodation.nombre acc) + sumZ (headcounts l)) as G.
  { unfold headcounts.
    induction l as [|inv l IH]; intros acc; cbn [fold_left List.filter].
    - cbn. lia.
    - rewrite IH. unfold pushAccommodation.
      destruct (Js.is_true _); cbn [map sumZ fold_right]; [|lia].
      rewrite map_app. unfold sumZ. rewrite fold_right_app. cbn [map fold_right].
      cbn [Accommodation.nombre].
      generalize (Js.or_zero (InvitationData.herbergement_nombre inv)).
      generalize (fold_right Z.add 0
        (map (fun inv0 => Js.or_zero (InvitationData.herbergement_nombre inv0))
           (List.filter (fun inv0 => Js.is_true (InvitationData.hebergement inv0)) l))).
      intros t n. clear IH.
      induction (map Accommodation.nombre acc) as [|x xs IHx]; cbn [fold_right]; lia. }
  rewrite G. cbn. lia.
Qed.

(** *** When the aggregator returns *)

(** [calculateStats] returns on every snapshot without a poisoned
    invitation, and throws on every other one. *)
Lemma calculateStats_returns (l : list InvitationData.t) :
  existsb poisoned l = false -> exists st, calculateStats l = Normal st.
Proof.
  intros H.
  destruct (calculateStats_cases l) as [[P _]|[_ (s & N & _)]]; [congruence|eauto].
Qed.

Lemma calculateStats_throws (l : list InvitationData.t) :
  existsb poisoned l = true -> calculateStats l = Throw TypeError.
Proof.
  intros H.
  destruct (calculateStats_cases l) as [[_ T]|[P _]]; [assumption|congruence].
Qed.

Example calculateStats_farceur : calculateStats (snapshot ++ [farceur]) = Throw TypeError.
Proof. apply calculateStats_throws. reflexivity. Qed.

Lemma calculateStats_snapshot : calculateStats snapshot = Normal snapshotStats.
Proof. vm_compute. reflexivity. Qed.

(** *** The claims *)

(** C3: in the statistics [calculateStats] returns, each category's
    [total] is the number of guests whose invitation type the category
    applies to, [accepted] the number of those whose relevant answer is
    exactly [true], [refused] the number of those whose answer is exactly
    [false]; a guest with a [null] answer is in [total] only. *)
Theorem counters_count_guests (l : list InvitationData.t) (st : Stats.t)
    (cat : category) :
  calculateStats l = Normal st ->
  Counter.total (counter cat st) = howMany cat anyAnswer l
  /\ Counter.accepted (counter cat st) = howMany cat Js.is_true l
  /\ Counter.refused (counter cat st) = howMany cat Js.is_false l
  /\ Counter.total (counter cat st)
     = Counter.accepted (counter cat st) + Counter.refused (counter cat st)
       + howMany cat Js.is_null l.
Proof.
  intros H. destruct (counter_fields cat l st H) as (Ha & Hr & Ht).
  rewrite Ha, Hr, Ht. repeat split. apply howMany_split.
Qed.

Lemma counters_count_guests_witness :
  Counter.total (counter Mairie snapshotStats) = howMany Mairie anyAnswer snapshot
  /\ Counter.accepted (counter Mairie snapshotStats)
     = howMany Mairie Js.is_true snapshot
  /\ Counter.refused (counter Mairie snapshotStats)
     = howMany Mairie Js.is_false snapshot
  /\ Counter.total (counter Mairie snapshotStats)
     = Counter.accepted (counter Mairie snapshotStats)
       + Counter.refused (counter Mairie snapshotStats)
       + howMany Mairie Js.is_null snapshot.
Proof.
  apply (counters_count_guests snapshot snapshotStats Mairie).
  vm_compute. reflexivity.
Defined.

(** C4: running [calculateStats] on a permutation of the invitations
    gives the same complete, mairie and château counters and the same
    accommodation total (and throws if and only if the original run
    throws). *)
Theorem calculateStats_Permutation (l l' : list InvitationData.t) :
  Permutation l l' ->
  mapCompletion counters (calculateStats l)
  = mapCompletion counters (calculateStats l').
Proof.
  intros P.
  pose proof (existsb_Permutation poisoned l l' P) as E.
  destruct (calculateStats_cases l) as [[P1 T1]|[P1 (s1 & N1 & C1)]];
    destruct (calculateStats_cases l') as [[P2 T2]|[P2 (s2 & N2 & C2)]];
    try congruence.
  rewrite N1, N2. cbn [mapCompletion]. f_equal.
  rewrite C1, C2. unfold counters. cbn [emptyStats Stats.complete Stats.mairie
      Stats.chateau Stats.accommodation].
  rewrite !fold_countersStep.
  rewrite (tallyInvitations_Permutation isFull _ l l' _ P).
  rewrite (tallyInvitations_Permutation isMairie _ l l' _ P).
  rewrite (tallyInvitations_Permutation isChateau _ l l' _ P).
  rewrite (sumZ_map_Permutation headcountShare l l' P).
  reflexivity.
Qed.

Lemma calculateStats_Permutation_witness :
  mapCompletion counters (calculateStats shuffled)
  = mapCompletion counters (calculateStats snapshot).
Proof.
  apply (calculateStats_Permutation shuffled snapshot).
  exact (Permutation_cons_append [martin; durand] petit).
Defined.

(** C5: the accommodation total [calculateStats] returns is the sum of
    [herbergement_nombre] over the invitations whose [hebergement] is
    exactly [true], a [null] headcount counting for 0; the other
    invitations add nothing. *)
Theorem accommodation_total (l : list InvitationData.t) (st : Stats.t) :
  calculateStats l = Normal st ->
  Stats.accommodation st = sumZ (headcounts l).
Proof.
  intros H. destruct (counters_closed l st H) as [_ A].
  rewrite A. apply sumZ_headcounts.
Qed.

Lemma accommodation_total_witness :
  Stats.accommodation snapshotStats = sumZ (headcounts snapshot).
Proof.
  apply (accommodation_total snapshot snapshotStats).
  vm_compute. reflexivity.
Defined.

(** C7: each counter of the complete category is at most the same
    counter of the château category. *)
Theorem complete_le_chateau (l : list InvitationData.t) (st : Stats.t) :
  calculateStats l = Normal st ->
  leCounter (Stats.complete st) (Stats.chateau st).
Proof.
  intros H.
  destruct (counter_fields Complete l st H) as (Ha & Hr & Ht).
  destruct (counter_fields Chateau l st H) as (Ja & Jr & Jt).
  cbn [counter] in *. unfold leCounter.
  rewrite Ha, Hr, Ht, Ja, Jr, Jt. unfold howMany.
  repeat split; apply Nat2Z.inj_le, filter_length_le; intros [inv g];
    cbn [fst snd applicable answer];
    destruct (Js.str_is (InvitationData.type inv) "full"); cbn [orb andb];
    congruence.
Qed.

Lemma complete_le_chateau_witness :
  leCounter (Stats.complete snapshotStats) (Stats.chateau snapshotStats).
Proof.
  apply (complete_le_chateau snapshot snapshotStats).
  vm_compute. reflexivity.
Defined.

(** C8: on one snapshot, the list [getStatsDetails] returns for a
    category and a status is as long as the matching counter of
    [calculateStats], and the headcounts [getAccommodationDetails] lists
    add up to the accommodation total. *)
Theorem details_match_counters (l : list InvitationData.t) (st : Stats.t) :
  calculateStats l = Normal st ->
  (forall type status,
      Z.of_nat (length (getStatsDetails type status l))
      = fieldOf status (counter (categoryOf type) st))
  /\ sumZ (map Accommodation.nombre (getAccommodationDetails l))
     = Stats.accommodation st.
Proof.
  intros H. split.
  - intros type status. rewrite length_getStatsDetails.
    destruct (counter_fields (categoryOf type) l st H) as (Ha & Hr & _).
    destruct status; cbn [fieldOf statusTest]; congruence.
  - rewrite sum_getAccommodationDetails.
    destruct (counters_closed l st H) as [_ A].
    rewrite A. symmetry. apply sumZ_headcounts.
Qed.

Lemma details_match_counters_witness :
  (forall type status,
      Z.of_nat (length (getStatsDetails type status snapshot))
      = fieldOf status (counter (categoryOf type) snapshotStats))
  /\ sumZ (map Accommodation.nombre (getAccommodationDetails snapshot))
     = Stats.accommodation snapshotStats.
Proof.
  apply (details_match_counters snapshot snapshotStats).
  vm_compute. reflexivity.
Defined.

End AdminFacts.

(** ** The endpoint *)

Module ApiFacts.
Import Api ApiSpec.

Section Endpoint.

Variable codec : Codec.t.
Variable sha256hex : string -> string.

Lemma tokenOf_body (req : option jsonValue) (token : string) :
  tokenOf req = Normal token ->
  exists body, req = Some body /\ get "token" body = Some (JString token).
Proof.
  unfold tokenOf. destruct req as [body|]; [|discriminate].
  intros H. exists body. split; [reflexivity|].
  destruct body as [|b|n|s|items|members]; cbn [get] in *; try discriminate H.
  destruct (lastMember "token" members) as [[]|]; try discriminate H.
  injection H as <-. reflexivity.
Qed.

Lemma POST_thrown (req : option jsonValue) (now : string) (db : Supabase.t)
    (e : exn) :
  tokenOf req = Throw e -> POST codec sha256hex req now db = Throw e.
Proof.
  unfold tokenOf, POST. destruct req as [body|]; [|intros [= <-]; reflexivity].
  destruct body as [|b|n|s|items|members]; cbn [get];
    try (intros [= <-]; reflexivity).
  destruct (lastMember "token" members) as [[]|]; intros H;
    first [discriminate H | injection H as <-; reflexivity].
Qed.

Lemma POST_parsed (body : jsonValue) (token now : string) (db : Supabase.t) :
  tokenOf (Some body) = Normal token ->
  POST codec sha256hex (Some body) now db
  = Normal (match reported codec sha256hex body token now db with
            | Some message => errorResponse message
            | None => okResponse
            end,
            snd (Supabase.update codec (updateObject body now) (sha256hex token) db)).
Proof.
  unfold tokenOf, POST, reported. intros H.
  destruct body as [|b|n|s|items|members]; cbn [get] in *; try discriminate H.
  destruct (lastMember "token" members) as [[]|]; try discriminate H.
  injection H as <-.
  destruct (Supabase.update _ _ _ db) as [[message|] db']; reflexivity.
Qed.

Lemma update_log (p : Patch.t) (h : string) (db : Supabase.t) :
  Supabase.received (snd (Supabase.update codec p h db))
  = (Supabase.received db ++ [(p, h)])%list
  /\ Supabase.faults (snd (Supabase.update codec p h db)) = tail (Supabase.faults db).
Proof.
  unfold Supabase.update.
  destruct (Supabase.nextFault db); [split; reflexivity|].
  destruct (readPatch codec p); split; reflexivity.
Qed.

Lemma update_rows (p : Patch.t) (h : string) (db : Supabase.t) :
  fst (Supabase.update codec p h db) = None ->
  exists columns,
    readPatch codec p = inr columns
    /\ Columns.confirmed_at columns = Patch.confirmed_at p
    /\ Supabase.invites (snd (Supabase.update codec p h db))
       = map (fun r => if matches h r then applyPatch columns r else r)
             (Supabase.invites db).
Proof.
  unfold Supabase.update.
  destruct (Supabase.nextFault db); [discriminate|].
  destruct (readPatch codec p) as [msg|columns] eqn:R; [discriminate|].
  intros _. exists columns. split; [reflexivity|]. split; [|reflexivity].
  unfold readPatch, andRead in R.
  repeat match type of R with
         | match ?r with inl _ => _ | inr _ => _ end = _ =>
             destruct r; [discriminate R|]
         end.
  injection R as <-. reflexivity.
Qed.

(** C9, as the specification states it, fails on a body that does not
    parse: the handler throws, so there is an outcome that is neither of
    the two responses. *)
Lemma POST_response_counterexample :
  ~ twoOutcomes strict tag None "2026-08-08T10:00:00.000Z" (healthy [row "h:abc"]).
Proof.
  intros (response & db' & H & _). discriminate H.
Qed.

(** C9, amended: a request whose body parses to something other than
    [null] with a string [token] gets status 500 and the store's message as
    it is when the store reports an error for its one update request, and
    [{ ok: true }] when the store reports none; the store receives exactly
    one request per call, so nothing is tried again.  Every other request
    makes the handler throw before the store is called. *)
Theorem POST_response (req : option jsonValue) (now : string) (db : Supabase.t) :
  match tokenOf req with
  | Throw e => POST codec sha256hex req now db = Throw e
  | Normal token =>
      exists body db',
        req = Some body
        /\ POST codec sha256hex req now db
           = Normal (match reported codec sha256hex body token now db with
                     | Some message => errorResponse message
                     | None => okResponse
                     end, db')
        /\ Supabase.received db'
           = (Supabase.received db ++ [request sha256hex body token now])%list
        /\ Supabase.faults db' = tail (Supabase.faults db)
  end.
Proof.
  destruct (tokenOf req) as [token|e] eqn:T.
  - destruct (tokenOf_body req token T) as (body & -> & _).
    exists body. eexists. split; [reflexivity|].
    split; [apply POST_parsed, T|].
    apply update_log.
  - apply POST_thrown, T.
Qed.

(** C10, as the specification states it, fails on the body [{}]: the store
    reports nothing, and the handler throws instead of answering. *)
Lemma POST_unchecked_counterexample :
  ~ alwaysOk strict tag (JObject []) "2026-08-08T10:00:00.000Z"
      (healthy [row "h:abc"]).
Proof.
  intros H. destruct H as (db' & H); [intros h; reflexivity | discriminate H].
Qed.

(** C10, amended: for a body that parses to something other than [null]
    with a string [token], whenever the store reports no error [POST]
    answers [{ ok: true }] whatever else the body holds and whether or not
    a row carries the token's digest; every row that does gets
    [confirmed_at] set to the current time, every other row is left as it
    is, and with no such row the table is unchanged under the same
    response. *)
Theorem POST_unchecked (body : jsonValue) (token now : string) (db : Supabase.t) :
  tokenOf (Some body) = Normal token ->
  reported codec sha256hex body token now db = None ->
  let h := sha256hex token in
  exists db',
    POST codec sha256hex (Some body) now db = Normal (okResponse, db')
    /\ Forall2 (stamped h now) (Supabase.invites db) (Supabase.invites db')
    /\ (existsb (matches h) (Supabase.invites db) = false
        -> Supabase.invites db' = Supabase.invites db).
Proof.
  intros T R. cbv zeta. eexists. split.
  { rewrite (POST_parsed body token now db T), R. reflexivity. }
  destruct (update_rows _ _ db R) as (columns & _ & C & ->).
  cbn [updateObject Patch.confirmed_at] in C.
  split.
  - induction (Supabase.invites db) as [|r rows IH]; cbn [map]; constructor.
    + unfold stamped. destruct (matches _ r); [|reflexivity].
      cbn. rewrite C. reflexivity.
    + exact IH.
  - induction (Supabase.invites db) as [|r rows IH]; cbn [map existsb]; [reflexivity|].
    intros E. apply orb_false_elim in E as [E1 E2].
    rewrite E1, (IH E2). reflexivity.
Qed.

End Endpoint.

Lemma POST_unchecked_witness :
  exists db',
    POST strict tag (Some (bare "abc")) "2026-08-08T10:00:00.000Z"
      (healthy [row "h:abc"; row "h:xyz"])
    = Normal (okResponse, db')
    /\ Forall2 (stamped (tag "abc") "2026-08-08T10:00:00.000Z")
         [row "h:abc"; row "h:xyz"] (Supabase.invites db')
    /\ (existsb (matches (tag "abc")) [row "h:abc"; row "h:xyz"] = false
        -> Supabase.invites db' = [row "h:abc"; row "h:xyz"]).
Proof.
  apply (POST_unchecked strict tag (bare "abc") "abc" "2026-08-08T10:00:00.000Z"
           (healthy [row "h:abc"; row "h:xyz"])).
  - reflexivity.
  - reflexivity.
Defined.

(** A store that fails once and would then succeed: the one failure is
    what the caller gets. *)
Example POST_flaky :
  POST strict tag (Some (bare "abc")) "2026-08-08T10:00:00.000Z" (flaky [row "h:abc"])
  = Normal (errorResponse "connection refused",
            Supabase.Build [row "h:abc"]
              [request tag (bare "abc") "abc" "2026-08-08T10:00:00.000Z"] [None]).
Proof. reflexivity. Qed.

(** An unknown token and no answer: success, and nothing written. *)
Example POST_unknown_token :
  POST strict tag (Some (bare "nobody")) "2026-08-08T10:00:00.000Z"
    (healthy [row "h:abc"])
  = Normal (okResponse,
            Supabase.Build [row "h:abc"]
              [request tag (bare "nobody") "nobody" "2026-08-08T10:00:00.000Z"] []).
Proof. reflexivity. Qed.

(** A known token and no answer: the answers stay, the confirmation time
    is overwritten. *)
Example POST_bare_body :
  POST strict tag (Some (bare "abc")) "2026-08-08T10:00:00.000Z" (healthy [row "h:abc"])
  = Normal (okResponse,
            Supabase.Build
              [Invite.Build "1" ["Alice"] partial_mairie "h:abc" (Some true) None None
                 None None None None (Some "2026-08-08T10:00:00.000Z")]
              [request tag (bare "abc") "abc" "2026-08-08T10:00:00.000Z"] []).
Proof. reflexivity. Qed.

(** No token, a token that is a number, a body that is [null]: the handler
    throws. *)
Example POST_malformed :
  POST strict tag (Some (JObject [("mairie", JBool true)]))
    "2026-08-08T10:00:00.000Z" (healthy [row "h:abc"]) = Throw TypeError
  /\ POST strict tag (Some (JObject [("token", JNumber "42")]))
       "2026-08-08T10:00:00.000Z" (healthy [row "h:abc"]) = Throw TypeError
  /\ POST strict tag (Some JNull) "2026-08-08T10:00:00.000Z" (healthy [row "h:abc"])
     = Throw TypeError.
Proof. repeat split. Qed.

End ApiFacts.

(** ** The guest page: handlers *)

Module GuestFacts.
Import Rsvp RsvpSpec RsvpFacts Guest GuestSpec.

Lemma forOf_map (body : Invite.t -> outcome) (f : Invite.t -> Invite.t)
    (l : list Invite.t) :
  (forall g, body (f g) = body g) -> forOf body (map f l) = forOf body l.
Proof.
  intros E. induction l as [|g l IH]; cbn [map forOf]; [reflexivity|].
  rewrite E, IH. reflexivity.
Qed.

Lemma validateForm_map (inv : Invitation.t) (f : Invite.t -> Invite.t)
    (l : list Invite.t) :
  (forall g, checkSamedi01 (f g) = checkSamedi01 g) ->
  (forall g, checkSamedi08 (f g) = checkSamedi08 g) ->
  (forall g, checkIA (f g) = checkIA g) ->
  validateForm (Some inv) (map f l) = validateForm (Some inv) l.
Proof.
  intros E1 E2 E3. unfold validateForm.
  rewrite !forOf_map by assumption. reflexivity.
Qed.

(** X1: [updateInvite] changes one field of the guests that carry the id, and
    nothing else: the list keeps its guests in place, every other field of
    every guest is as before, and a guest with another id is left as it is. *)
Theorem updateInvite_effect (id : Z) (field : answerField) (value : option bool)
    (prev : list Invite.t) :
  Forall2 sameGuest prev (updateInvite id field value prev)
  /\ Forall2 (fun old new =>
               (forall f, f <> field -> getField f new = getField f old)
               /\ (Invite.id old = id -> getField field new = value)
               /\ (Invite.id old <> id -> new = old))
            prev (updateInvite id field value prev).
Proof.
  unfold updateInvite. split.
  - induction prev as [|g l IH]; cbn [map]; constructor; [|exact IH].
    destruct (Z.eqb_spec (Invite.id g) id); [|repeat split].
    destruct field; repeat split.
  - induction prev as [|g l IH]; cbn [map]; constructor; [|exact IH].
    destruct (Z.eqb_spec (Invite.id g) id) as [E|E].
    + split; [|split].
      * intros f Hf. destruct field, f; try reflexivity; congruence.
      * intros _. destruct field; reflexivity.
      * intros N. congruence.
    + split; [|split]; [reflexivity | congruence | reflexivity].
Qed.

(** X2: The brunch box is never looked at by the validator: ticking or
    unticking it for any guest leaves the outcome of [validateForm], alert
    included, as it was. *)
Theorem validateForm_ignores_brunch (inv : Invitation.t) (id : Z)
    (value : option bool) (invites : list Invite.t) :
  validateForm (Some inv) (updateInvite id FBrunch value invites)
  = validateForm (Some inv) invites.
Proof.
  unfold updateInvite. apply validateForm_map; intros g;
    destruct (Z.eqb (Invite.id g) id); reflexivity.
Qed.

Lemma fieldMissing_setField (type : option string) (field : answerField)
    (b : bool) (g : Invite.t) :
  fieldMissing type g = false -> fieldMissing type (setField field (Some b) g) = false.
Proof.
  unfold fieldMissing. destruct g as [i n m c ch br fk ia].
  destruct field, (townHallRequired type), m, c, ch, ia; cbn; congruence.
Qed.

(** X3: Recording an answer never breaks a form that was valid: if
    [validateForm] passes, it still passes after [updateInvite] stores a
    yes or a no in any field of any guest. *)
Theorem answering_keeps_valid (inv : Invitation.t) (id : Z) (field : answerField)
    (b : bool) (invites : list Invite.t) :
  validateForm (Some inv) invites = Pass ->
  validateForm (Some inv) (updateInvite id field (Some b) invites) = Pass.
Proof.
  rewrite <- !returns_Pass.
  intros H. apply negb_false_iff. apply negb_false_iff in H.
  rewrite validateForm_fails in *.
  unfold rejects in *. apply orb_false_elim in H as [G A]. rewrite A, orb_false_r.
  clear A. unfold updateInvite.
  induction invites as [|g l IH]; cbn [map existsb] in *; [reflexivity|].
  apply orb_false_elim in G as [G1 G2]. rewrite (IH G2), orb_false_r.
  destruct (Z.eqb (Invite.id g) id); [|exact G1].
  apply fieldMissing_setField, G1.
Qed.

Lemma answering_keeps_valid_witness :
  validateForm (Some townHallOnly)
    (updateInvite 1 FCocktail (Some true) [aliceAtChateau]) = Pass.
Proof.
  apply (answering_keeps_valid townHallOnly 1 FCocktail true [aliceAtChateau]).
  reflexivity.
Defined.

(** X4: A form is valid for a guest list put together from two lists exactly
    when it is valid for each of the two. *)
Theorem validateForm_app (inv : Invitation.t) (l1 l2 : list Invite.t) :
  validateForm (Some inv) (l1 ++ l2) = Pass
  <-> validateForm (Some inv) l1 = Pass /\ validateForm (Some inv) l2 = Pass.
Proof.
  rewrite <- !returns_Pass.
  assert (forall l, returns (validateForm (Some inv) l) = negb (rejects inv l)) as E.
  { intros l. rewrite <- validateForm_fails, negb_involutive. reflexivity. }
  rewrite !E. unfold rejects. rewrite existsb_app.
  destruct (existsb _ l1), (existsb _ l2), (accommodationMissing inv); cbn;
    intuition congruence.
Qed.

(** X5: Choosing "Non" for the night at the château clears the headcount, and
    whatever the accommodation answer and headcount were before, the form
    then passes as soon as the guests' answers are complete. *)
Theorem chooseNon_valid (inv : Invitation.t) (invites : list Invite.t) :
  guestsAnswered (Invitation.type inv) invites ->
  exists inv',
    chooseNon (Some inv) = Some inv'
    /\ Invitation.hebergement inv' = Some false
    /\ Invitation.herbergement_nombre inv' = None
    /\ validateForm (Some inv') invites = Pass.
Proof.
  intros G. eexists. split; [reflexivity|]. cbn.
  split; [reflexivity|]. split; [reflexivity|].
  rewrite validateForm_after_guests by exact G. reflexivity.
Qed.

Lemma chooseNon_valid_witness :
  exists inv',
    chooseNon (Some sleepover) = Some inv'
    /\ Invitation.hebergement inv' = Some false
    /\ Invitation.herbergement_nombre inv' = None
    /\ validateForm (Some inv') [aliceAtChateau] = Pass.
Proof.
  apply (chooseNon_valid sleepover [aliceAtChateau]). reflexivity.
Defined.

End GuestFacts.

(** ** The guest page: loading and submission *)

Module SubmissionFacts.
Import Rsvp RsvpSpec RsvpFacts Guest GuestSpec.

(** *** The store *)

Lemma quiet_nextFault (db : Store.t) : quiet db -> Store.nextFault db = None.
Proof.
  unfold quiet, Store.nextFault. destruct (Store.faults db) as [|f fs]; [reflexivity|].
  intros Q. inversion Q; assumption.
Qed.

Lemma quiet_tail (fs : list (option string)) :
  Forall (fun f => f = None) fs -> Forall (fun f => f = None) (tail fs).
Proof. destruct fs; [trivial|]. intros Q. inversion Q; assumption. Qed.

Lemma tail_drop {A : Type} (n : nat) (l : list A) : drop n (tail l) = drop (S n) l.
Proof. destruct l; cbn [tail]; [rewrite !drop_nil|]; reflexivity. Qed.

Lemma quiet_drop (n : nat) (fs : list (option string)) :
  Forall (fun f => f = None) fs -> Forall (fun f => f = None) (drop n fs).
Proof. apply Forall_drop. Qed.

(** The loop over the guests never touches the [invitation] table. *)
Lemma updateInvites_invitation (gs : list Invite.t) (db : Store.t) :
  Store.invitation (snd (updateInvites gs db)) = Store.invitation db.
Proof.
  revert db. induction gs as [|g gs IH]; intros db; cbn [updateInvites]; [reflexivity|].
  unfold Store.updateInvite.
  destruct (Store.nextFault db); cbn [snd]; [reflexivity|].
  rewrite IH. reflexivity.
Qed.

Lemma updateInvites_quiet (gs : list Invite.t) (db : Store.t) :
  quiet db ->
  updateInvites gs db
  = (None,
     Store.Build (Store.invitation db) (writeAll gs (Store.invites db))
       (Store.received db
        ++ map (fun g => Store.UpdateInvite (Invite.id g) (invitePatch g)) gs)
       (drop (length gs) (Store.faults db))).
Proof.
  revert db. induction gs as [|g gs IH]; intros db Q; cbn [updateInvites].
  - cbn. rewrite app_nil_r. destruct db; reflexivity.
  - unfold Store.updateInvite. rewrite (quiet_nextFault db Q).
    rewrite IH by (apply quiet_tail, Q).
    unfold Store.served. cbn [Store.invitation Store.invites Store.received
                              Store.faults map length writeAll fold_left].
    rewrite <- app_assoc, tail_drop. reflexivity.
Qed.

Lemma handleSubmit_quiet (now : string) (st : Page.t) (db : Store.t)
    (inv : Invitation.t) :
  Page.invitation st = Some inv ->
  validateForm (Some inv) (Page.invites st) = Pass ->
  quiet db ->
  handleSubmit now st db
  = Submission.Build (setLoading false (setSubmitted true st))
      (Store.Build (writeCard inv now (Store.invitation db))
         (writeAll (Page.invites st) (Store.invites db))
         (Store.received db ++ submitRequests inv now (Page.invites st))
         (drop (S (length (Page.invites st))) (Store.faults db)))
      None.
Proof.
  intros I V Q. unfold handleSubmit. rewrite I, V.
  unfold Store.updateInvitation. rewrite (quiet_nextFault db Q).
  rewrite updateInvites_quiet by (apply quiet_tail, Q).
  unfold Store.served, submitRequests, writeCard, idIs.
  cbn [Store.invitation Store.invites Store.received Store.faults].
  rewrite <- app_assoc, tail_drop. reflexivity.
Qed.

(** *** Writing the guests of the form over the table *)

Lemma writeAll_nil (gs : list Invite.t) : writeAll gs [] = [].
Proof. induction gs as [|g gs IH]; [reflexivity | exact IH]. Qed.

Lemma writeAll_cons (gs : list Invite.t) (g : Invite.t) (table : list Invite.t) :
  writeAll gs (g :: table) = writeOne gs g :: writeAll gs table.
Proof.
  revert g table. induction gs as [|g1 gs IH]; intros g table; [reflexivity|].
  cbn [writeAll writeOne fold_left]. unfold writeInvite at 1. cbn [map].
  apply IH.
Qed.

Lemma writeOne_fixed (gs : list Invite.t) (g : Invite.t) :
  Invite.id (writeOne gs g) = Invite.id g
  /\ Invite.fk_invitation (writeOne gs g) = Invite.fk_invitation g.
Proof.
  unfold writeOne. revert g.
  induction gs as [|g1 gs IH]; intros g; [split; reflexivity|].
  cbn [fold_left].
  destruct (Z.eqb (Invite.id g) (Invite.id g1)); [|apply IH].
  destruct (IH (Store.patchInvite (invitePatch g1) g)) as [A B].
  rewrite A, B. split; reflexivity.
Qed.

Lemma writeOne_stranger (gs : list Invite.t) (g : Invite.t) :
  ~ In (Invite.id g) (map Invite.id gs) -> writeOne gs g = g.
Proof.
  induction gs as [|g1 gs IH]; intros N; [reflexivity|].
  cbn [writeOne fold_left]. cbn [map In] in N.
  destruct (Z.eqb_spec (Invite.id g) (Invite.id g1)) as [E|E].
  - exfalso. apply N. left. congruence.
  - apply IH. intros H. apply N. right. exact H.
Qed.

Lemma writeInvite_stranger (g1 : Invite.t) (table : list Invite.t) :
  ~ In (Invite.id g1) (map Invite.id table) -> writeInvite g1 table = table.
Proof.
  unfold writeInvite.
  induction table as [|g table IH]; intros N; [reflexivity|].
  cbn [map In] in *.
  destruct (Z.eqb_spec (Invite.id g) (Invite.id g1)) as [E|E].
  - exfalso. apply N. left. exact E.
  - rewrite IH; [reflexivity|]. intros H. apply N. right. exact H.
Qed.

Lemma sameGuest_ids (p : Invite.t -> bool) (table gs : list Invite.t) :
  Forall2 sameGuest (List.filter p table) gs ->
  forall i, In i (map Invite.id gs) -> In i (map Invite.id table).
Proof.
  revert gs. induction table as [|g table IH]; intros gs F i Hi; cbn [List.filter] in F.
  - inversion F; subst. exact Hi.
  - destruct (p g).
    + inversion F as [|? g1 ? gs1 S F1]; subst. cbn [map In] in *.
      destruct Hi as [Hi|Hi].
      * left. destruct S as (S & _). congruence.
      * right. eapply IH; eassumption.
    + cbn [map In]. right. eapply IH; eassumption.
Qed.

Lemma patch_sameGuest (g g1 : Invite.t) :
  sameGuest g g1 -> Store.patchInvite (invitePatch g1) g = g1.
Proof.
  intros (A & B & C). destruct g, g1. cbn in *. subst. reflexivity.
Qed.

(** Reading the guests of an invitation back after the form has written
    them gives the guests of the form. *)
Lemma filter_writeAll (k : string) (table gs : list Invite.t) :
  NoDup (map Invite.id table) ->
  Forall2 sameGuest (List.filter (ofInvitation k) table) gs ->
  List.filter (ofInvitation k) (writeAll gs table) = gs.
Proof.
  revert gs. induction table as [|g table IH]; intros gs D F.
  - cbn in F. inversion F; subst. reflexivity.
  - cbn [map] in D. apply NoDup_cons in D as [Dg D].
    rewrite writeAll_cons. cbn [List.filter] in *.
    destruct (writeOne_fixed gs g) as [_ Fk].
    unfold ofInvitation at 1. rewrite Fk. fold (ofInvitation k g).
    destruct (ofInvitation k g) eqn:P.
    + inversion F as [|? g1 ? gs1 S F1]; subst.
      assert (~ In (Invite.id g) (map Invite.id gs1)) as N1.
      { intros H. apply Dg. apply list_elem_of_In.
        eapply sameGuest_ids; eassumption. }
      cbn [writeOne fold_left].
      assert (Invite.id g = Invite.id g1) as E by (destruct S as (S & _); congruence).
      rewrite E, Z.eqb_refl. fold (writeOne gs1 (Store.patchInvite (invitePatch g1) g)).
      rewrite (patch_sameGuest g g1 S).
      rewrite writeOne_stranger by (rewrite <- E; exact N1).
      f_equal. cbn [writeAll fold_left].
      rewrite writeInvite_stranger.
      * apply IH; assumption.
      * rewrite <- E. intros H. apply Dg. apply list_elem_of_In. exact H.
    + apply IH; assumption.
Qed.

Lemma filter_map_fixed {A : Type} (p : A -> bool) (f : A -> A) (l : list A) :
  (forall x, p (f x) = p x) ->
  List.filter p (map f l) = map f (List.filter p l).
Proof.
  intros E. induction l as [|x l IH]; cbn [map List.filter]; [reflexivity|].
  rewrite E. destruct (p x); cbn [map]; rewrite IH; reflexivity.
Qed.

Lemma filter_writeCard (h : string) (inv : Invitation.t) (now : string)
    (rows : list Store.InvitationRow.t) :
  List.filter (hashIs h) (writeCard inv now rows)
  = writeCard inv now (List.filter (hashIs h) rows).
Proof.
  unfold writeCard. apply filter_map_fixed.
  intros r. destruct (idIs _ r); reflexivity.
Qed.

(** *** Submission *)

(** X6: A form the validator rejects is not sent: [handleSubmit] shows the
    validator's alert and leaves the page state and the store, its list of
    received requests included, exactly as they were. *)
Theorem invalid_form_not_sent (now : string) (st : Page.t) (db : Store.t)
    (inv : Invitation.t) :
  Page.invitation st = Some inv ->
  rejects inv (Page.invites st) = true ->
  exists msg,
    validateForm (Some inv) (Page.invites st) = Alert msg
    /\ handleSubmit now st db = Submission.Build st db (Some msg).
Proof.
  intros I R. rewrite <- validateForm_fails in R. unfold handleSubmit. rewrite I.
  destruct (validateForm (Some inv) (Page.invites st)) as [|msg]; [discriminate R|].
  exists msg. split; reflexivity.
Qed.

Lemma invalid_form_not_sent_witness :
  exists msg,
    validateForm (Some Samples.card) [alice] = Alert msg
    /\ handleSubmit Samples.instant
         (Page.Build (Some Samples.card) [alice] None false false) Samples.healthy
       = Submission.Build (Page.Build (Some Samples.card) [alice] None false false)
           Samples.healthy (Some msg).
Proof.
  apply (invalid_form_not_sent Samples.instant
           (Page.Build (Some Samples.card) [alice] None false false)
           Samples.healthy Samples.card).
  - reflexivity.
  - reflexivity.
Defined.

(** X7: On a store that reports no error, a valid form is sent as one update
    of the invitation followed by one update per guest in the order of the
    form, nothing else; the page ends submitted, not loading, without an
    alert. *)
Theorem valid_form_requests (now : string) (st : Page.t) (db : Store.t)
    (inv : Invitation.t) :
  Page.invitation st = Some inv ->
  validateForm (Some inv) (Page.invites st) = Pass ->
  quiet db ->
  let sub := handleSubmit now st db in
  Submission.alert sub = None
  /\ Page.submitted (Submission.page sub) = true
  /\ Page.loading (Submission.page sub) = false
  /\ Store.received (Submission.store sub)
     = (Store.received db ++ submitRequests inv now (Page.invites st))%list.
Proof.
  intros I V Q. cbv zeta. rewrite (handleSubmit_quiet now st db inv I V Q).
  repeat split.
Qed.

Lemma valid_form_requests_witness :
  let sub := handleSubmit Samples.instant Samples.editing Samples.healthy in
  Submission.alert sub = None
  /\ Page.submitted (Submission.page sub) = true
  /\ Page.loading (Submission.page sub) = false
  /\ Store.received (Submission.store sub)
     = (Store.received Samples.healthy
        ++ submitRequests Samples.filled Samples.instant
             (Page.invites Samples.editing))%list.
Proof.
  apply (valid_form_requests Samples.instant Samples.editing Samples.healthy
           Samples.filled).
  - reflexivity.
  - reflexivity.
  - constructor.
Defined.

(** X8: The confirmation time is written with the first request: once the
    invitation update has gone through, every row of that invitation holds
    [confirmed_at = now] in the store [handleSubmit] leaves behind, whether
    or not the updates of the guests that follow succeed. *)
Theorem confirmed_before_guests (now : string) (st : Page.t) (db : Store.t)
    (inv : Invitation.t) :
  Page.invitation st = Some inv ->
  validateForm (Some inv) (Page.invites st) = Pass ->
  Store.nextFault db = None ->
  Forall (fun r => idIs (Invitation.id inv) r = true ->
                   Invitation.confirmed_at (Store.InvitationRow.columns r) = Some now)
         (Store.invitation (Submission.store (handleSubmit now st db))).
Proof.
  intros I V F. unfold handleSubmit. rewrite I, V.
  unfold Store.updateInvitation. rewrite F.
  set (db1 := Store.served _ _ _ db).
  assert (Forall (fun r => idIs (Invitation.id inv) r = true ->
                   Invitation.confirmed_at (Store.InvitationRow.columns r) = Some now)
                 (Store.invitation db1)) as H.
  { subst db1. cbn [Store.served Store.invitation].
    induction (Store.invitation db) as [|r rows IH]; cbn [map]; constructor;
      [|exact IH].
    unfold idIs.
    destruct (String.eqb (Invitation.id (Store.InvitationRow.columns r))
                         (Invitation.id inv)) eqn:E.
    - intros _. reflexivity.
    - intros E'. congruence. }
  pose proof (updateInvites_invitation (Page.invites st) db1) as K.
  destruct (updateInvites (Page.invites st) db1) as [[e|] db2];
    cbn [snd Submission.store] in *; rewrite K; exact H.
Qed.

Lemma confirmed_before_guests_witness :
  Forall (fun r => idIs (Invitation.id Samples.filled) r = true ->
                   Invitation.confirmed_at (Store.InvitationRow.columns r)
                   = Some Samples.instant)
         (Store.invitation
            (Submission.store
               (handleSubmit Samples.instant Samples.editing Samples.failing))).
Proof.
  apply (confirmed_before_guests Samples.instant Samples.editing Samples.failing
           Samples.filled).
  - reflexivity.
  - reflexivity.
  - reflexivity.
Defined.

Section Digest.

Variable sha256 : string -> string.

Lemma fetchData_found (token : string) (st : Page.t) (db : Store.t)
    (r : Store.InvitationRow.t) :
  quiet db ->
  List.filter (hashIs (sha256 token)) (Store.invitation db) = [r] ->
  fst (fetchData sha256 token st db)
  = Page.Build (Some (Store.InvitationRow.columns r))
      (List.filter (ofInvitation (Invitation.id (Store.InvitationRow.columns r)))
                   (Store.invites db))
      (Page.fetchError st)
      (if truthy (Invitation.confirmed_at (Store.InvitationRow.columns r))
       then true else Page.submitted st)
      (Page.loading st).
Proof.
  intros Q H. unfold fetchData, Store.selectInvitation.
  rewrite (quiet_nextFault db Q). unfold hashIs in H. rewrite H.
  unfold Store.selectInvites.
  rewrite quiet_nextFault by (apply quiet_tail, Q).
  reflexivity.
Qed.

(** X10: A token whose digest is on no row, or on more than one, or a store
    that reports an error, all look the same to the guest: [fetchData] sets
    the one message "Invitation introuvable.", keeps the rest of the state,
    asks the store nothing more, and the page renders that message. *)
Theorem fetchData_not_found (token : string) (st : Page.t) (db : Store.t) :
  Store.nextFault db <> None
  \/ length (List.filter (hashIs (sha256 token)) (Store.invitation db)) <> 1%nat ->
  let st' := fst (fetchData sha256 token st db) in
  st' = Page.Build (Page.invitation st) (Page.invites st)
          (Some "Invitation introuvable.") (Page.submitted st) (Page.loading st)
  /\ render st' = ErrorView "Invitation introuvable."
  /\ Store.received (snd (fetchData sha256 token st db))
     = (Store.received db ++ [Store.SelectInvitation (sha256 token)])%list.
Proof.
  intros H. cbv zeta. unfold fetchData, Store.selectInvitation.
  destruct (Store.nextFault db) as [e|]; [repeat split|].
  destruct H as [H|H]; [congruence|].
  unfold hashIs in H.
  destruct (List.filter _ (Store.invitation db)) as [|r [|r' rows]];
    [repeat split | cbn in H; congruence | repeat split].
Qed.

(** X11: Round trip: when a valid form is submitted to a store that reports no
    error, loading the page again with the same token gives back the
    answers of the form for the invitation and for every guest, with the
    confirmation time set and the page marked as submitted. *)
Theorem submit_then_reload (token now : string) (st : Page.t) (db : Store.t)
    (r : Store.InvitationRow.t) (inv : Invitation.t) :
  quiet db ->
  List.filter (hashIs (sha256 token)) (Store.invitation db) = [r] ->
  sameCard (Store.InvitationRow.columns r) inv ->
  NoDup (map Invite.id (Store.invites db)) ->
  Forall2 sameGuest
    (List.filter (ofInvitation (Invitation.id inv)) (Store.invites db))
    (Page.invites st) ->
  Page.invitation st = Some inv ->
  validateForm (Some inv) (Page.invites st) = Pass ->
  now <> "" ->
  let sub := handleSubmit now st db in
  Submission.alert sub = None
  /\ fst (fetchData sha256 token initial (Submission.store sub))
     = Page.Build (Some (readBack inv now)) (Page.invites st) None true false.
Proof.
  intros Q H (C1 & C2 & C3) D G I V N. cbv zeta.
  rewrite (handleSubmit_quiet now st db inv I V Q).
  split; [reflexivity|]. cbn [Submission.store].
  set (db' := Store.Build _ _ _ _).
  assert (quiet db') as Q' by (apply quiet_drop, Q).
  assert (idIs (Invitation.id inv) r = true) as E.
  { unfold idIs. rewrite <- C1. apply String.eqb_refl. }
  assert (List.filter (hashIs (sha256 token)) (Store.invitation db')
          = [Store.patchInvitation (invitationPatch inv now) r]) as H'.
  { subst db'. cbn [Store.invitation]. rewrite filter_writeCard, H.
    unfold writeCard. cbn [map]. rewrite E. reflexivity. }
  rewrite (fetchData_found token initial db' _ Q' H').
  cbn [Store.patchInvitation Store.InvitationRow.columns Invitation.id
       Invitation.confirmed_at invitationPatch Store.InvitationPatch.regime
       Store.InvitationPatch.allergie Store.InvitationPatch.hebergement
       Store.InvitationPatch.herbergement_nombre Store.InvitationPatch.link_music
       Store.InvitationPatch.confirmed_at initial Page.fetchError Page.submitted
       Page.loading].
  rewrite <- C1, <- C2, <- C3.
  subst db'. cbn [Store.invites].
  rewrite (filter_writeAll _ _ _ D G).
  destruct now as [|a now']; [congruence|]. reflexivity.
Qed.

(** X9: A submission can fail and still confirm the invitation: when the
    invitation update goes through and the update of the first guest fails,
    [handleSubmit] shows the error alert, leaves the page unsubmitted and
    the guests' rows untouched, yet the next load of the same link finds
    [confirmed_at] set and renders the recap instead of the form. *)
Theorem failed_guest_update_confirms (token now e : string) (st : Page.t)
    (db : Store.t) (r : Store.InvitationRow.t) (inv : Invitation.t)
    (g : Invite.t) (gs : list Invite.t) :
  Page.invitation st = Some inv ->
  Page.invites st = g :: gs ->
  validateForm (Some inv) (g :: gs) = Pass ->
  Store.faults db = [None; Some e] ->
  List.filter (hashIs (sha256 token)) (Store.invitation db) = [r] ->
  idIs (Invitation.id inv) r = true ->
  now <> "" ->
  let sub := handleSubmit now st db in
  Submission.alert sub = Some msgErreur
  /\ Page.submitted (Submission.page sub) = Page.submitted st
  /\ Store.invites (Submission.store sub) = Store.invites db
  /\ render (fst (fetchData sha256 token initial (Submission.store sub))) = RecapView.
Proof.
  intros I L V F H E N. cbv zeta.
  unfold handleSubmit. rewrite I, L, V.
  unfold Store.updateInvitation, Store.nextFault. rewrite F.
  cbn [updateInvites]. unfold Store.updateInvite, Store.nextFault, Store.served.
  cbn [Store.faults Store.invitation Store.invites Store.received].
  rewrite !F. cbn [tail].
  cbn [Submission.alert Submission.page Submission.store setLoading Page.submitted
       Store.invites].
  split; [reflexivity|]. split; [reflexivity|]. split; [reflexivity|].
  set (db' := Store.Build _ _ _ _).
  assert (quiet db') as Q' by constructor.
  assert (List.filter (hashIs (sha256 token)) (Store.invitation db')
          = [Store.patchInvitation (invitationPatch inv now) r]) as H'.
  { subst db'. cbn [Store.invitation].
    change (map _ (Store.invitation db)) with (writeCard inv now (Store.invitation db)).
    rewrite filter_writeCard, H. unfold writeCard. cbn [map]. rewrite E. reflexivity. }
  rewrite (fetchData_found token initial db' _ Q' H').
  unfold render. cbn.
  destruct now as [|a now']; [congruence|]. reflexivity.
Qed.

End Digest.

Lemma failed_guest_update_confirms_witness :
  let sub := handleSubmit Samples.instant Samples.editing Samples.failing in
  Submission.alert sub = Some msgErreur
  /\ Page.submitted (Submission.page sub) = Page.submitted Samples.editing
  /\ Store.invites (Submission.store sub) = Store.invites Samples.failing
  /\ render (fst (fetchData ApiSpec.tag "abc" initial (Submission.store sub)))
     = RecapView.
Proof.
  apply (failed_guest_update_confirms ApiSpec.tag "abc" Samples.instant "timeout"
           Samples.editing Samples.failing
           (Store.InvitationRow.Build "h:abc" Samples.card) Samples.filled
           aliceAtChateau [Samples.bob]).
  - reflexivity.
  - reflexivity.
  - reflexivity.
  - reflexivity.
  - reflexivity.
  - reflexivity.
  - discriminate.
Defined.

Lemma fetchData_not_found_witness :
  let st' := fst (fetchData ApiSpec.tag "nobody" initial Samples.healthy) in
  st' = Page.Build None [] (Some "Invitation introuvable.") false false
  /\ render st' = ErrorView "Invitation introuvable."
  /\ Store.received (snd (fetchData ApiSpec.tag "nobody" initial Samples.healthy))
     = (Store.received Samples.healthy
        ++ [Store.SelectInvitation (ApiSpec.tag "nobody")])%list.
Proof.
  apply (fetchData_not_found ApiSpec.tag "nobody" initial Samples.healthy).
  right. cbn. discriminate.
Defined.

Lemma submit_then_reload_witness :
  let sub := handleSubmit Samples.instant Samples.editing Samples.healthy in
  Submission.alert sub = None
  /\ fst (fetchData ApiSpec.tag "abc" initial (Submission.store sub))
     = Page.Build (Some (readBack Samples.filled Samples.instant))
         (Page.invites Samples.editing) None true false.
Proof.
  apply (submit_then_reload ApiSpec.tag "abc" Samples.instant Samples.editing
           Samples.healthy
           (Store.InvitationRow.Build "h:abc" Samples.card) Samples.filled).
  - constructor.
  - reflexivity.
  - repeat split.
  - apply (bool_decide_unpack _). vm_compute. exact I.
  - cbn. repeat constructor.
  - reflexivity.
  - reflexivity.
  - discriminate.
Defined.

End SubmissionFacts.

(** ** The dashboard *)

Module DashboardFacts.
Import Admin AdminSpec AdminFacts Dashboard.

(** *** Nesting the guests under their invitations *)

Lemma guests_nested (f : InvitationRow.t -> list Invite.t)
    (rows : list InvitationRow.t) :
  map snd (guests (map (fun r => withInvites r (f r)) rows)) = flat_map f rows.
Proof.
  unfold guests.
  induction rows as [|r rows IH]; cbn [map flat_map]; [reflexivity|].
  rewrite map_app, IH. f_equal. cbn [withInvites InvitationData.invites].
  generalize (withInvites r (f r)). intros x.
  induction (f r) as [|g gs IHg]; cbn [map snd]; [reflexivity|].
  rewrite IHg. reflexivity.
Qed.

Lemma existsb_eqb_In (s : string) (l : list string) :
  existsb (String.eqb s) l = true <-> In s l.
Proof.
  rewrite existsb_exists. split.
  - intros (x & Hx & E). apply String.eqb_eq in E. subst. exact Hx.
  - intros H. exists s. split; [exact H | apply String.eqb_refl].
Qed.

Lemma filter_or_disjoint {A : Type} (p q : A -> bool) (l : list A) :
  (forall x, p x = true -> q x = false) ->
  Permutation (List.filter (fun x => p x || q x) l)
              (List.filter p l ++ List.filter q l).
Proof.
  intros D. induction l as [|x l IH]; cbn [List.filter]; [constructor|].
  destruct (p x) eqn:P; cbn [orb].
  - rewrite (D x P). cbn [app]. constructor. exact IH.
  - destruct (q x).
    + apply Permutation_cons_app. exact IH.
    + exact IH.
Qed.

Lemma nested_Permutation (rows : list InvitationRow.t) (invites : list Invite.t) :
  NoDup (map InvitationRow.id rows) ->
  Permutation
    (flat_map
       (fun r => List.filter
                   (fun g => String.eqb (Invite.fk_invitation g) (InvitationRow.id r))
                   invites)
       rows)
    (List.filter (claimed rows) invites).
Proof.
  unfold claimed.
  induction rows as [|r rows IH]; intros D; cbn [flat_map map existsb].
  - induction invites as [|g gs IHg]; [constructor | exact IHg].
  - cbn [map] in D. apply NoDup_cons in D as [Dr D].
    symmetry. etransitivity.
    + apply filter_or_disjoint. intros g E.
      apply String.eqb_eq in E.
      destruct (existsb _ _) eqn:X; [|reflexivity].
      apply existsb_eqb_In in X. rewrite E in X.
      exfalso. apply Dr. apply list_elem_of_In. exact X.
    + apply Permutation_app_head. symmetry. apply IH, D.
Qed.

(** X12: When the fetched invitations have distinct ids, [fetchInvitations]
    loses and repeats no guest: the guests nested under the invitations
    are, up to order, the fetched guests whose [fk_invitation] names a
    fetched invitation, and each sits under the invitation it names.  A
    guest naming no fetched invitation appears nowhere. *)
Theorem nesting_keeps_guests (invitationsData : option (list InvitationRow.t))
    (allInvitesData : option (list Invite.t)) :
  NoDup (map InvitationRow.id (orEmpty invitationsData)) ->
  let nested := guests (invitationsWithInvites invitationsData allInvitesData) in
  Permutation (map snd nested)
              (List.filter (claimed (orEmpty invitationsData))
                           (orEmpty allInvitesData))
  /\ Forall (fun p => Invite.fk_invitation (snd p) = InvitationData.id (fst p))
            nested.
Proof.
  intros D. cbv zeta. unfold invitationsWithInvites. split.
  - rewrite guests_nested. apply nested_Permutation, D.
  - clear D. unfold guests. apply List.Forall_forall. intros [inv g] H.
    apply in_flat_map in H as (d & Hd & Hg).
    apply in_map_iff in Hd as (r & <- & _).
    cbn [withInvites InvitationData.invites] in Hg.
    apply in_map_iff in Hg as (g' & E & Hg').
    injection E as <- <-.
    apply List.filter_In in Hg' as [_ Hg'].
    apply String.eqb_eq in Hg'. exact Hg'.
Qed.

Lemma nesting_keeps_guests_witness :
  let nested := guests (invitationsWithInvites (Some sampleRows) (Some sampleInvites)) in
  Permutation (map snd nested) (List.filter (claimed sampleRows) sampleInvites)
  /\ Forall (fun p => Invite.fk_invitation (snd p) = InvitationData.id (fst p))
            nested.
Proof.
  apply (nesting_keeps_guests (Some sampleRows) (Some sampleInvites)).
  apply (bool_decide_unpack _). vm_compute. exact I.
Defined.

(** *** The regime table *)

Lemma pushed_app (g : option RegimeGroup.t) (a b : list string) :
  pushed (pushed g a) b = pushed g (a ++ b).
Proof.
  destruct a as [|x a]; [reflexivity|].
  destruct b as [|y b]; [rewrite app_nil_r; reflexivity|].
  cbn [pushed app RegimeGroup.count RegimeGroup.invitations].
  f_equal. f_equal.
  - cbn [length]. rewrite List.length_app. cbn [length]. lia.
  - rewrite <- app_assoc. reflexivity.
Qed.

Lemma collectRegime_lookup (inv : InvitationData.t) (s s' : Stats.t) (r : string) :
  collectRegime inv s = Normal s' ->
  Stats.regimes s' !! r = pushed (Stats.regimes s !! r) (listedNames r [inv]).
Proof.
  unfold collectRegime, listedNames, listedUnder. cbn [List.filter].
  destruct (InvitationData.regime inv) as [x|]; [|intros [= <-]; reflexivity].
  destruct (nonEmpty x && trimTruthy x); cbn [andb]; [|intros [= <-]; reflexivity].
  destruct (String.eqb_spec x r) as [->|N].
  - destruct (Stats.regimes s !! r) as [g|] eqn:L.
    + intros [= <-]. cbn. rewrite lookup_insert_eq. reflexivity.
    + destruct (inherited r); [discriminate|].
      intros [= <-]. cbn. rewrite lookup_insert_eq. reflexivity.
  - destruct (Stats.regimes s !! x) as [g|] eqn:L.
    + intros [= <-]. cbn. rewrite lookup_insert_ne by exact N. reflexivity.
    + destruct (inherited x); [discriminate|].
      intros [= <-]. cbn. rewrite lookup_insert_ne by exact N. reflexivity.
Qed.

Lemma countInvitation_lookup (inv : InvitationData.t) (s s' : Stats.t) (r : string) :
  countInvitation s inv = Normal s' ->
  Stats.regimes s' !! r = pushed (Stats.regimes s !! r) (listedNames r [inv]).
Proof.
  unfold countInvitation. intros H.
  rewrite (collectRegime_lookup _ _ _ r H).
  destruct (countAccommodation_fields inv
              (fold_left (countInvite inv) (InvitationData.invites inv) s)) as [_ R].
  rewrite R, fold_countInvite. reflexivity.
Qed.

Lemma forEach_lookup (l : list InvitationData.t) (s s' : Stats.t) (r : string) :
  forEach countInvitation l s = Normal s' ->
  Stats.regimes s' !! r = pushed (Stats.regimes s !! r) (listedNames r l).
Proof.
  revert s. induction l as [|inv l IH]; intros s; cbn [forEach].
  - intros [= <-]. reflexivity.
  - destruct (countInvitation s inv) as [s1|e] eqn:C; [|discriminate].
    intros H. rewrite (IH s1 H), (countInvitation_lookup inv s s1 r C), pushed_app.
    f_equal. unfold listedNames. cbn [List.filter app].
    destruct (listedUnder r inv); reflexivity.
Qed.

(** X13: The regime table [calculateStats] returns holds, under each regime
    string, the names of the invitations that gave exactly that string
    (blank strings left out), in snapshot order and with their number as
    count; a string no invitation gave has no entry. *)
Theorem regimes_table (l : list InvitationData.t) (st : Stats.t) (r : string) :
  calculateStats l = Normal st ->
  Stats.regimes st !! r = groupOf r l.
Proof.
  intros H. unfold calculateStats in H.
  rewrite (forEach_lookup l emptyStats st r H).
  cbn [emptyStats Stats.regimes]. rewrite lookup_empty.
  unfold groupOf. destruct (listedNames r l); reflexivity.
Qed.

Lemma regimes_table_witness :
  Stats.regimes snapshotStats !! "Halal" = groupOf "Halal" snapshot.
Proof.
  apply (regimes_table snapshot snapshotStats "Halal").
  vm_compute. reflexivity.
Defined.

(** *** When the statistics cannot be computed *)

Lemma inherited_In (r : string) : inherited r = true <-> In r objectPrototypeKeys.
Proof. apply existsb_eqb_In. Qed.

Lemma inherited_not_blank (r : string) :
  inherited r = true -> nonEmpty r && trimTruthy r = true.
Proof.
  intros H. apply inherited_In in H. unfold objectPrototypeKeys in H.
  cbn [In] in H.
  repeat (destruct H as [<-|H]; [reflexivity|]). destruct H.
Qed.

(** X14: [calculateStats] throws a [TypeError] exactly when some invitation's
    regime is the name of a member of [Object.prototype] ([toString],
    [constructor], ...), and returns statistics on every other snapshot. *)
Theorem calculateStats_throws_iff (l : list InvitationData.t) :
  (calculateStats l = Throw TypeError
   <-> exists inv r, In inv l /\ InvitationData.regime inv = Some r
                     /\ In r objectPrototypeKeys)
  /\ ((exists st, calculateStats l = Normal st)
      <-> forall inv r, In inv l -> InvitationData.regime inv = Some r ->
                        ~ In r objectPrototypeKeys).
Proof.
  assert (existsb poisoned l = true
          <-> exists inv r, In inv l /\ InvitationData.regime inv = Some r
                            /\ In r objectPrototypeKeys) as P.
  { rewrite existsb_exists. split.
    - intros (inv & Hi & Hp). unfold poisoned in Hp.
      destruct (InvitationData.regime inv) as [r|] eqn:R; [|discriminate].
      exists inv, r. split; [exact Hi|]. split; [exact R|].
      apply inherited_In. apply andb_prop in Hp as [_ Hp]. exact Hp.
    - intros (inv & r & Hi & R & K). exists inv. split; [exact Hi|].
      unfold poisoned. rewrite R. apply inherited_In in K.
      rewrite (inherited_not_blank r K), K. reflexivity. }
  destruct (calculateStats_cases l) as [[E T]|[E (s & N & _)]].
  - split; split.
    + intros _. apply P, E.
    + intros _. exact T.
    + intros (st & N). congruence.
    + intros H. exfalso. apply P in E as (inv & r & Hi & R & K).
      exact (H inv r Hi R K).
  - split; split.
    + congruence.
    + intros H. apply P in H. congruence.
    + intros _ inv r Hi R K.
      assert (existsb poisoned l = true) by (apply P; eauto). congruence.
    + intros _. eauto.
Qed.

(** *** The detail lists *)

Lemma fold_pushPerson (type : statsType) (status : statsStatus)
    (inv : InvitationData.t) (gs : list Invite.t) (people : list Person.t) :
  fold_left (pushPerson type status inv) gs people
  = (people
     ++ map person
          (List.filter (fun p => include type status (fst p) (snd p))
                       (map (pair inv) gs)))%list.
Proof.
  revert people. induction gs as [|g gs IH]; intros people;
    cbn [fold_left map List.filter fst snd].
  - rewrite app_nil_r. reflexivity.
  - rewrite IH. unfold pushPerson.
    destruct (include type status inv g); [|reflexivity].
    rewrite <- app_assoc. reflexivity.
Qed.

(** X15: The detail queries list exactly what the counters count, in snapshot
    order: [getStatsDetails] the guests the category applies to whose
    answer has the asked status, [getAccommodationDetails] the invitations
    that accepted accommodation with their headcount ([null] shown as 0);
    missing names are replaced by "Invité" and "Invitation". *)
Theorem details_lists (type : statsType) (status : statsStatus)
    (l : list InvitationData.t) :
  getStatsDetails type status l
  = map person
        (List.filter
           (fun p => applicable (categoryOf type) (fst p)
                     && statusTest status (answer (categoryOf type) (snd p)))
           (guests l))
  /\ getAccommodationDetails l
     = map lodging
           (List.filter (fun inv => Js.is_true (InvitationData.hebergement inv)) l).
Proof.
  split.
  - unfold getStatsDetails, guests.
    assert (forall people,
      fold_left
        (fun people inv =>
           fold_left (pushPerson type status inv) (InvitationData.invites inv) people)
        l people
      = (people
         ++ map person
              (List.filter (fun p => include type status (fst p) (snd p))
                 (flat_map (fun inv => map (pair inv) (InvitationData.invites inv))
                           l)))%list) as G.
    { induction l as [|inv l IH]; intros people; cbn [fold_left flat_map].
      - cbn. rewrite app_nil_r. reflexivity.
      - rewrite IH, fold_pushPerson, List.filter_app, map_app, <- app_assoc.
        reflexivity. }
    rewrite G. cbn [app]. f_equal.
    generalize (flat_map (fun inv => map (pair inv) (InvitationData.invites inv)) l).
    intros ps. induction ps as [|p ps IHp]; cbn [List.filter]; [reflexivity|].
    rewrite include_test, IHp. reflexivity.
  - unfold getAccommodationDetails.
    assert (forall acc,
      fold_left pushAccommodation l acc
      = (acc ++ map lodging
                  (List.filter (fun inv => Js.is_true (InvitationData.hebergement inv))
                               l))%list) as G.
    { induction l as [|inv l IH]; intros acc; cbn [fold_left List.filter].
      - cbn. rewrite app_nil_r. reflexivity.
      - rewrite IH. unfold pushAccommodation.
        destruct (Js.is_true _); [|reflexivity].
        cbn [map]. rewrite <- app_assoc. reflexivity. }
    rewrite G. reflexivity.
Qed.

(** *** Counters of two snapshots put together *)

Lemma sumZ_map_app {A : Type} (f : A -> Z) (l1 l2 : list A) :
  sumZ (map f (l1 ++ l2)) = sumZ (map f l1) + sumZ (map f l2).
Proof.
  unfold sumZ. induction l1 as [|x l1 IH]; cbn [app map fold_right]; lia.
Qed.

(** X16: The counters are additive: when [calculateStats] returns on two
    snapshots it returns on one followed by the other, and every counter
    and the accommodation total are the sums of the two. *)
Theorem calculateStats_app (l1 l2 : list InvitationData.t) (s1 s2 : Stats.t) :
  calculateStats l1 = Normal s1 ->
  calculateStats l2 = Normal s2 ->
  exists s,
    calculateStats (l1 ++ l2) = Normal s
    /\ (forall cat, counter cat s = addCounter (counter cat s1) (counter cat s2))
    /\ Stats.accommodation s = Stats.accommodation s1 + Stats.accommodation s2.
Proof.
  intros H1 H2.
  destruct (calculateStats_cases l1) as [[_ T]|[P1 _]]; [congruence|].
  destruct (calculateStats_cases l2) as [[_ T]|[P2 _]]; [congruence|].
  destruct (calculateStats_cases (l1 ++ l2)) as [[P _]|[_ (s & N & _)]].
  { rewrite existsb_app, P1, P2 in P. discriminate. }
  exists s. split; [exact N|].
  destruct (counters_closed _ _ H1) as [C1 A1].
  destruct (counters_closed _ _ H2) as [C2 A2].
  destruct (counters_closed _ _ N) as [C A].
  split.
  - intros cat. rewrite (C cat), (C1 cat), (C2 cat).
    destruct (tallyInvitations_fields (applicable cat) (answer cat) (l1 ++ l2)
                zeroCounter) as (Ha & Hr & Ht).
    destruct (tallyInvitations_fields (applicable cat) (answer cat) l1 zeroCounter)
      as (Ha1 & Hr1 & Ht1).
    destruct (tallyInvitations_fields (applicable cat) (answer cat) l2 zeroCounter)
      as (Ha2 & Hr2 & Ht2).
    cbn zeta in *.
    apply counter_ext; cbn [addCounter Counter.accepted Counter.refused Counter.total];
      rewrite ?Ha, ?Hr, ?Ht, ?Ha1, ?Hr1, ?Ht1, ?Ha2, ?Hr2, ?Ht2, ?sumZ_map_app;
      cbn [zeroCounter Counter.accepted Counter.refused Counter.total]; lia.
  - rewrite A, A1, A2. apply sumZ_map_app.
Qed.

Lemma calculateStats_app_witness :
  exists s,
    calculateStats (snapshot ++ snapshot) = Normal s
    /\ (forall cat,
          counter cat s = addCounter (counter cat snapshotStats)
                                     (counter cat snapshotStats))
    /\ Stats.accommodation s
       = Stats.accommodation snapshotStats + Stats.accommodation snapshotStats.
Proof.
  apply (calculateStats_app snapshot snapshot snapshotStats snapshotStats).
  - vm_compute. reflexivity.
  - vm_compute. reflexivity.
Defined.

(** *** Bounds *)

(** X17: In the statistics [calculateStats] returns, no counter is negative,
    accepted and refused together never exceed the total, no total exceeds
    the number of guests in the snapshot, and the complete category never
    counts more guests than the mairie category. *)
Theorem counter_bounds (l : list InvitationData.t) (st : Stats.t) (cat : category) :
  calculateStats l = Normal st ->
  0 <= Counter.accepted (counter cat st)
  /\ 0 <= Counter.refused (counter cat st)
  /\ Counter.accepted (counter cat st) + Counter.refused (counter cat st)
     <= Counter.total (counter cat st)
  /\ Counter.total (counter cat st) <= Z.of_nat (length (guests l))
  /\ Counter.total (Stats.complete st) <= Counter.total (Stats.mairie st).
Proof.
  intros H. destruct (counter_fields cat l st H) as (Ha & Hr & Ht).
  rewrite Ha, Hr, Ht, (howMany_split cat l).
  split; [unfold howMany; lia|]. split; [unfold howMany; lia|].
  split; [unfold howMany; lia|]. split.
  - rewrite <- howMany_split. unfold howMany.
    apply Nat2Z.inj_le, List.filter_length_le.
  - destruct (counter_fields Complete l st H) as (_ & _ & Kc).
    destruct (counter_fields Mairie l st H) as (_ & _ & Km).
    cbn [counter] in Kc, Km. rewrite Kc, Km. unfold howMany.
    apply Nat2Z.inj_le, filter_length_le. intros [inv g].
    cbn [fst snd applicable answer]. unfold anyAnswer.
    destruct (Js.str_is (InvitationData.type inv) "full"); cbn [orb andb]; congruence.
Qed.

Lemma counter_bounds_witness :
  0 <= Counter.accepted (counter Chateau snapshotStats)
  /\ 0 <= Counter.refused (counter Chateau snapshotStats)
  /\ Counter.accepted (counter Chateau snapshotStats)
     + Counter.refused (counter Chateau snapshotStats)
     <= Counter.total (counter Chateau snapshotStats)
  /\ Counter.total (counter Chateau snapshotStats) <= Z.of_nat (length (guests snapshot))
  /\ Counter.total (Stats.complete snapshotStats)
     <= Counter.total (Stats.mairie snapshotStats).
Proof.
  apply (counter_bounds snapshot snapshotStats Chateau).
  vm_compute. reflexivity.
Defined.

End DashboardFacts.

(** ** The administrator session *)

Module LoginFacts.
Import Dashboard Login.

Section Digest.

Variable sha256 : string -> string.

(** X18: The login form lets the administrator in exactly when the store
    reports no error, exactly one [admin] row carries the login, and that
    row's stored password equals the digest of the password typed. *)
Theorem login_succeeds_iff (login password : string) (now : Z)
    (admins : list AdminRow.t) (fault : option string)
    (localStorage : gmap string string) :
  Result.router (handleSubmit sha256 login password now admins fault localStorage)
  = Push "/admin/dashboard"
  <-> fault = None
      /\ exists a,
           List.filter (fun a => String.eqb (AdminRow.login a) login) admins = [a]
           /\ AdminRow.password a = sha256 password.
Proof.
  unfold handleSubmit, selectAdmin.
  destruct fault as [e|].
  { cbn. split; [discriminate | intros [H _]; discriminate H]. }
  destruct (List.filter _ admins) as [|a [|a' rest]].
  - cbn. split; [discriminate | intros [_ (a & H & _)]; discriminate H].
  - destruct (String.eqb_spec (sha256 password) (AdminRow.password a)) as [E|E]; cbn.
    + split; [|reflexivity]. intros _. split; [reflexivity|].
      exists a. split; [reflexivity | congruence].
    + split; [discriminate|]. intros [_ (b & H & P)].
      injection H as <-. congruence.
  - cbn. split; [discriminate | intros [_ (b & H & _)]; discriminate H].
Qed.


(** X20: The session marker from login to logout: after a successful login the
    dashboard's [checkAuth] lets the browser in and loads the invitations;
    after [handleLogout] the two keys are gone, nothing else of
    [localStorage] has changed, and [checkAuth] sends the browser back to
    the login page. *)
Theorem session_cycle (login password : string) (now : Z)
    (admins : list AdminRow.t) (fault : option string)
    (localStorage : gmap string string) :
  (forall text, sha256 text <> "") ->
  let res := handleSubmit sha256 login password now admins fault localStorage in
  Result.router res = Push "/admin/dashboard" ->
  checkAuth (Result.localStorage res) = (Stay, true)
  /\ fst (handleLogout (Result.localStorage res))
     = delete "adminId" (delete "adminToken" localStorage)
  /\ checkAuth (fst (handleLogout (Result.localStorage res)))
     = (Push "/admin/login", false).
Proof.
  intros NE. cbv zeta. unfold handleSubmit.
  destruct (selectAdmin login admins fault) as [a|]; [|discriminate].
  destruct (String.eqb (sha256 password) (AdminRow.password a)); cbn [negb];
    [|discriminate].
  intros _. cbn [Result.localStorage]. unfold checkAuth, handleLogout. cbn [fst].
  split; [|split].
  - rewrite lookup_insert_ne by discriminate. rewrite lookup_insert_eq.
    destruct (sha256 _) eqn:E; [exfalso; exact (NE _ E) | reflexivity].
  - apply map_eq. intros k.
    destruct (decide (k = "adminId")) as [->|N1].
    { rewrite !lookup_delete_eq. reflexivity. }
    rewrite !(lookup_delete_ne _ "adminId") by congruence.
    destruct (decide (k = "adminToken")) as [->|N2].
    { rewrite !lookup_delete_eq. reflexivity. }
    rewrite !lookup_delete_ne by congruence.
    rewrite !lookup_insert_ne by congruence. reflexivity.
  - rewrite lookup_delete_ne by discriminate. rewrite lookup_delete_eq. reflexivity.
Qed.

End Digest.


Lemma session_cycle_witness :
  let res :=
    handleSubmit ApiSpec.tag "lina" "secret" 1786183200000 Samples.admins None ∅ in
  checkAuth (Result.localStorage res) = (Stay, true)
  /\ fst (handleLogout (Result.localStorage res))
     = delete "adminId" (delete "adminToken" ∅)
  /\ checkAuth (fst (handleLogout (Result.localStorage res)))
     = (Push "/admin/login", false).
Proof.
  apply (session_cycle ApiSpec.tag "lina" "secret" 1786183200000 Samples.admins
           None ∅).
  - intros text. unfold ApiSpec.tag. cbn. discriminate.
  - reflexivity.
Defined.

End LoginFacts.

(** ** The endpoint, call after call *)

Module ApiMoreFacts.
Import Api ApiSpec ApiMoreSpec ApiFacts.

Section Endpoint.

Variable codec : Codec.t.
Variable sha256hex : string -> string.

(** What the store has read is what each member was read as. *)
Lemma readPatch_columns (p : Patch.t) (columns : Columns.t) :
  readPatch codec p = inr columns ->
  let boolean := readMember (Codec.boolean codec) (Codec.refusal codec) in
  let text := readMember (Codec.text codec) (Codec.refusal codec) in
  boolean (Patch.mairie p) = inr (Columns.mairie columns)
  /\ boolean (Patch.cocktail p) = inr (Columns.cocktail columns)
  /\ boolean (Patch.chateau p) = inr (Columns.chateau columns)
  /\ text (Patch.regime p) = inr (Columns.regime columns)
  /\ text (Patch.allergie p) = inr (Columns.allergie columns)
  /\ boolean (Patch.hebergement p) = inr (Columns.hebergement columns)
  /\ boolean (Patch.brunch p) = inr (Columns.brunch columns).
Proof.
  unfold readPatch, andRead. cbv zeta. intros R.
  destruct (readMember _ _ (Patch.mairie p)); [discriminate R|].
  destruct (readMember _ _ (Patch.cocktail p)); [discriminate R|].
  destruct (readMember _ _ (Patch.chateau p)); [discriminate R|].
  destruct (readMember _ _ (Patch.regime p)); [discriminate R|].
  destruct (readMember _ _ (Patch.allergie p)); [discriminate R|].
  destruct (readMember _ _ (Patch.hebergement p)); [discriminate R|].
  destruct (readMember _ _ (Patch.brunch p)); [discriminate R|].
  injection R as <-. repeat split.
Qed.

Lemma readMember_absent {A : Type} (read : jsonValue -> option (option A))
    (refusal : jsonValue -> string) (v : option (option A)) :
  readMember read refusal None = inr v -> v = None.
Proof. cbn. congruence. Qed.

Lemma untouched_refl (req : option jsonValue) (r : Invite.t) : untouched req r r.
Proof. unfold untouched. repeat split; trivial. Qed.

Lemma applyPatch_untouched (body : jsonValue) (now : string) (columns : Columns.t)
    (r : Invite.t) :
  readPatch codec (updateObject body now) = inr columns ->
  untouched (Some body) r (applyPatch columns r).
Proof.
  intros R. apply readPatch_columns in R. cbv zeta in R.
  cbn [updateObject Patch.mairie Patch.cocktail Patch.chateau Patch.regime
       Patch.allergie Patch.hebergement Patch.brunch] in R.
  destruct R as (R1 & R2 & R3 & R4 & R5 & R6 & R7).
  unfold untouched, sent, applyPatch. cbn.
  repeat split; intros E;
    match goal with
    | H : readMember _ _ (get ?k body) = _, E : get ?k body = None |- _ =>
        rewrite E in H; apply readMember_absent in H; rewrite H; reflexivity
    end.
Qed.

(** X21: Whatever the request and whatever the store reports, the endpoint
    adds and removes no row, never changes a row's id, names, type or token
    digest, and leaves every answer column as it was when the request does
    not send the member of that name. *)
Theorem POST_untouched (req : option jsonValue) (now : string) (db : Supabase.t) :
  Forall2 (untouched req) (Supabase.invites db)
          (Supabase.invites (after codec sha256hex req now db)).
Proof.
  assert (Forall2 (untouched req) (Supabase.invites db) (Supabase.invites db)) as Same.
  { induction (Supabase.invites db); constructor;
      [apply untouched_refl | assumption]. }
  unfold after.
  destruct (tokenOf req) as [token|e] eqn:T.
  2:{ rewrite (POST_thrown codec sha256hex req now db e T). exact Same. }
  destruct (tokenOf_body req token T) as (body & -> & _).
  rewrite (POST_parsed codec sha256hex body token now db T).
  unfold Supabase.update.
  destruct (Supabase.nextFault db); cbn [snd Supabase.invites]; [exact Same|].
  destruct (readPatch codec (updateObject body now)) as [msg|columns] eqn:R;
    cbn [snd Supabase.invites]; [exact Same|].
  clear Same.
  induction (Supabase.invites db) as [|r rows IH]; cbn [map]; constructor;
    [|exact IH].
  destruct (String.eqb _ _); [|apply untouched_refl].
  apply (applyPatch_untouched body now columns r R).
Qed.

(** *** A store that is not at fault *)

Lemma endpoint_nextFault (db : Supabase.t) : quiet db -> Supabase.nextFault db = None.
Proof.
  unfold quiet, Supabase.nextFault.
  destruct (Supabase.faults db); [reflexivity|]. intros Q. inversion Q; assumption.
Qed.

Lemma after_effect (req : option jsonValue) (now : string) (db : Supabase.t) :
  Supabase.nextFault db = None ->
  Supabase.invites (after codec sha256hex req now db)
  = map (effect codec sha256hex req now) (Supabase.invites db).
Proof.
  intros F. unfold after, effect.
  destruct (tokenOf req) as [token|e] eqn:T.
  - destruct (tokenOf_body req token T) as (body & -> & _).
    rewrite (POST_parsed codec sha256hex body token now db T), T.
    unfold Supabase.update. rewrite F.
    destruct (readPatch codec (updateObject body now)); cbn [snd Supabase.invites].
    + symmetry. apply map_id.
    + reflexivity.
  - rewrite (POST_thrown codec sha256hex req now db e T).
    destruct req as [body|]; [rewrite T|]; symmetry; apply map_id.
Qed.

Lemma after_quiet (req : option jsonValue) (now : string) (db : Supabase.t) :
  quiet db -> quiet (after codec sha256hex req now db).
Proof.
  intros Q. unfold after.
  destruct (tokenOf req) as [token|e] eqn:T.
  - destruct (tokenOf_body req token T) as (body & -> & _).
    rewrite (POST_parsed codec sha256hex body token now db T).
    unfold quiet. rewrite (proj2 (update_log codec _ _ db)).
    unfold quiet in Q. destruct (Supabase.faults db); [exact Q|].
    inversion Q; assumption.
  - rewrite (POST_thrown codec sha256hex req now db e T). exact Q.
Qed.

Lemma written_twice {A : Type} (v : option (option A)) (column : option A) :
  written v (written v column) = written v column.
Proof. destruct v; reflexivity. Qed.

Lemma effect_twice (req : option jsonValue) (now : string) (r : Invite.t) :
  effect codec sha256hex req now (effect codec sha256hex req now r)
  = effect codec sha256hex req now r.
Proof.
  unfold effect. destruct req as [body|]; [|reflexivity].
  destruct (tokenOf (Some body)) as [token|e]; [|reflexivity].
  destruct (readPatch codec (updateObject body now)) as [msg|columns]; [reflexivity|].
  destruct (matches (sha256hex token) r) eqn:M; [|rewrite M; reflexivity].
  assert (matches (sha256hex token) (applyPatch columns r) = true) as -> by exact M.
  unfold applyPatch. cbn. rewrite !written_twice. reflexivity.
Qed.

(** X22: Sending the same request twice at the same instant to a store that
    reports no error leaves the table as sending it once does. *)
Theorem POST_idempotent (req : option jsonValue) (now : string) (db : Supabase.t) :
  quiet db ->
  Supabase.invites (after codec sha256hex req now (after codec sha256hex req now db))
  = Supabase.invites (after codec sha256hex req now db).
Proof.
  intros Q.
  rewrite (after_effect req now (after codec sha256hex req now db))
    by (apply endpoint_nextFault, after_quiet, Q).
  rewrite (after_effect req now db) by (apply endpoint_nextFault, Q).
  rewrite map_map. apply map_ext. intros r. apply effect_twice.
Qed.

Lemma effect_commute (r1 r2 : option jsonValue) (now1 now2 : string) (r : Invite.t) :
  (forall t1 t2, tokenOf r1 = Normal t1 -> tokenOf r2 = Normal t2 ->
                 sha256hex t1 <> sha256hex t2) ->
  effect codec sha256hex r2 now2 (effect codec sha256hex r1 now1 r)
  = effect codec sha256hex r1 now1 (effect codec sha256hex r2 now2 r).
Proof.
  intros N. unfold effect.
  destruct r1 as [b1|]; [|reflexivity].
  destruct (tokenOf (Some b1)) as [t1|e1]; [|reflexivity].
  destruct r2 as [b2|]; [|reflexivity].
  destruct (tokenOf (Some b2)) as [t2|e2]; [|reflexivity].
  specialize (N t1 t2 eq_refl eq_refl).
  destruct (readPatch codec (updateObject b1 now1)) as [m1|c1]; [reflexivity|].
  destruct (readPatch codec (updateObject b2 now2)) as [m2|c2]; [reflexivity|].
  unfold matches.
  destruct (String.eqb_spec (Invite.token_hash r) (sha256hex t1)) as [E1|E1];
    destruct (String.eqb_spec (Invite.token_hash r) (sha256hex t2)) as [E2|E2];
    cbn [applyPatch Invite.token_hash];
    repeat match goal with
           | |- context [String.eqb ?a ?b] => destruct (String.eqb_spec a b)
           end;
    congruence.
Qed.

(** X23: Submissions for tokens with different digests do not interfere: in
    either order they leave the same table. *)
Theorem POST_commute (r1 r2 : option jsonValue) (now1 now2 : string)
    (db : Supabase.t) :
  (forall t1 t2, tokenOf r1 = Normal t1 -> tokenOf r2 = Normal t2 ->
                 sha256hex t1 <> sha256hex t2) ->
  quiet db ->
  Supabase.invites (after codec sha256hex r2 now2 (after codec sha256hex r1 now1 db))
  = Supabase.invites (after codec sha256hex r1 now1 (after codec sha256hex r2 now2 db)).
Proof.
  intros N Q.
  rewrite (after_effect r2 now2 (after codec sha256hex r1 now1 db))
    by (apply endpoint_nextFault, after_quiet, Q).
  rewrite (after_effect r1 now1 (after codec sha256hex r2 now2 db))
    by (apply endpoint_nextFault, after_quiet, Q).
  rewrite !after_effect by (apply endpoint_nextFault, Q).
  rewrite !map_map. apply map_ext. intros r. apply effect_commute, N.
Qed.

(** X24: A member sent as [null] erases the answer: when a body with a
    string token carries [null] for an answer column, the store takes
    [null] for that column and reports no error, every row with the token's
    digest holds no answer in that column afterwards, whatever it held
    before. *)
Theorem POST_null_clears (c : column) (body : jsonValue) (token now : string)
    (db : Supabase.t) :
  tokenOf (Some body) = Normal token ->
  get (columnName c) body = Some JNull ->
  takesNull codec c ->
  reported codec sha256hex body token now db = None ->
  Forall (fun r => matches (sha256hex token) r = true -> unanswered c r)
         (Supabase.invites (after codec sha256hex (Some body) now db)).
Proof.
  intros T G K R. unfold after.
  rewrite (POST_parsed codec sha256hex body token now db T).
  destruct (update_rows codec _ _ db R) as (columns & P & _ & ->).
  apply readPatch_columns in P. cbv zeta in P.
  cbn [updateObject Patch.mairie Patch.cocktail Patch.chateau Patch.regime
       Patch.allergie Patch.hebergement Patch.brunch] in P.
  destruct P as (P1 & P2 & P3 & P4 & P5 & P6 & P7).
  induction (Supabase.invites db) as [|r rows IH]; cbn [map]; constructor;
    [|exact IH].
  destruct (matches (sha256hex token) r) eqn:M.
  - intros _.
    destruct c; cbn [columnName takesNull unanswered] in *;
      unfold applyPatch;
      cbn [Invite.mairie Invite.cocktail Invite.chateau Invite.regime
           Invite.allergie Invite.hebergement Invite.brunch];
      match goal with
      | H : readMember _ _ (get ?k body) = _, G : get ?k body = Some JNull |- _ =>
          rewrite G in H; cbn [readMember] in H; rewrite K in H;
          injection H as H; rewrite <- H; reflexivity
      end.
  - intros M'. congruence.
Qed.

End Endpoint.

Lemma POST_idempotent_witness :
  Supabase.invites
    (after strict tag (Some (full_body "abc")) "2026-08-08T10:00:00.000Z"
       (after strict tag (Some (full_body "abc")) "2026-08-08T10:00:00.000Z"
          (healthy [row "h:abc"; row "h:xyz"])))
  = Supabase.invites
      (after strict tag (Some (full_body "abc")) "2026-08-08T10:00:00.000Z"
         (healthy [row "h:abc"; row "h:xyz"])).
Proof.
  apply (POST_idempotent strict tag (Some (full_body "abc"))
           "2026-08-08T10:00:00.000Z" (healthy [row "h:abc"; row "h:xyz"])).
  constructor.
Defined.

Lemma POST_commute_witness :
  Supabase.invites
    (after strict tag (Some (bare "xyz")) "2026-08-09T09:00:00.000Z"
       (after strict tag (Some (full_body "abc")) "2026-08-08T10:00:00.000Z"
          (healthy [row "h:abc"; row "h:xyz"])))
  = Supabase.invites
      (after strict tag (Some (full_body "abc")) "2026-08-08T10:00:00.000Z"
         (after strict tag (Some (bare "xyz")) "2026-08-09T09:00:00.000Z"
            (healthy [row "h:abc"; row "h:xyz"]))).
Proof.
  apply (POST_commute strict tag (Some (full_body "abc")) (Some (bare "xyz"))
           "2026-08-08T10:00:00.000Z" "2026-08-09T09:00:00.000Z"
           (healthy [row "h:abc"; row "h:xyz"])).
  - intros t1 t2 [= <-] [= <-]. cbn. discriminate.
  - constructor.
Defined.

Lemma POST_null_clears_witness :
  Forall (fun r => matches (tag "abc") r = true -> unanswered CMairie r)
         (Supabase.invites
            (after strict tag (Some (withdrawal "abc")) "2026-08-08T10:00:00.000Z"
               (healthy [row "h:abc"; row "h:xyz"]))).
Proof.
  apply (POST_null_clears strict tag CMairie (withdrawal "abc") "abc"
           "2026-08-08T10:00:00.000Z" (healthy [row "h:abc"; row "h:xyz"])).
  - reflexivity.
  - reflexivity.
  - reflexivity.
  - reflexivity.
Defined.

End ApiMoreFacts.
